(** * A shallow embedding of the [kuna] client library (kuna/kuna.py).

    Python strings are modelled as lists of Unicode code points, byte
    strings as lists of integers in [0, 256).  The network and the clock are
    inputs of the model: a request is handed to a [server] function, and
    [time.time()] is read from the environment. *)

From Stdlib Require Import ZArith Strings.String Strings.Ascii List Bool Lia.
Import ListNotations.
Open Scope Z_scope.
Open Scope list_scope.
Set Warnings "-register-all".

(** ** Python strings and bytes *)

Definition pystr := list Z.
Definition bytes := list Z.

(** A Rocq string literal as a Python [str] (its characters are ASCII). *)
Fixpoint py (s : string) : pystr :=
  match s with
  | EmptyString => []
  | String c s' => Z.of_nat (nat_of_ascii c) :: py s'
  end.

(** The same with a backquote standing for a double quote. *)
Definition pyq (s : string) : pystr := map (fun c => if c =? 96 then 34 else c) (py s).

Definition str_eqb (a b : pystr) : bool :=
  if list_eq_dec Z.eq_dec a b then true else false.

Definition is_ascii_char (c : Z) : bool := (0 <=? c) && (c <? 128).
Definition is_ascii (s : pystr) : bool := forallb is_ascii_char s.

(** [s.encode('ascii')]: [None] is the [UnicodeEncodeError]. *)
Definition encode_ascii (s : pystr) : option bytes :=
  if is_ascii s then Some s else None.

(** ** SHA-384 (hashlib.sha384), FIPS 180-4 *)

Module Sha384.

Definition mask64 : Z := Z.ones 64.
Definition add64 (x y : Z) : Z := (x + y) mod 2 ^ 64.
Definition rotr (n x : Z) : Z :=
  Z.land (Z.lor (Z.shiftr x n) (Z.shiftl x (64 - n))) mask64.
Definition shr (n x : Z) : Z := Z.shiftr x n.

Definition Sigma0 (x : Z) := Z.lxor (Z.lxor (rotr 28 x) (rotr 34 x)) (rotr 39 x).
Definition Sigma1 (x : Z) := Z.lxor (Z.lxor (rotr 14 x) (rotr 18 x)) (rotr 41 x).
Definition sigma0 (x : Z) := Z.lxor (Z.lxor (rotr 1 x) (rotr 8 x)) (shr 7 x).
Definition sigma1 (x : Z) := Z.lxor (Z.lxor (rotr 19 x) (rotr 61 x)) (shr 6 x).
Definition Ch (x y z : Z) := Z.lxor (Z.land x y) (Z.land (Z.lxor x mask64) z).
Definition Maj (x y z : Z) :=
  Z.lxor (Z.lxor (Z.land x y) (Z.land x z)) (Z.land y z).

Definition K : list Z := [
    0x428a2f98d728ae22; 0x7137449123ef65cd; 0xb5c0fbcfec4d3b2f; 0xe9b5dba58189dbbc;
    0x3956c25bf348b538; 0x59f111f1b605d019; 0x923f82a4af194f9b; 0xab1c5ed5da6d8118;
    0xd807aa98a3030242; 0x12835b0145706fbe; 0x243185be4ee4b28c; 0x550c7dc3d5ffb4e2;
    0x72be5d74f27b896f; 0x80deb1fe3b1696b1; 0x9bdc06a725c71235; 0xc19bf174cf692694;
    0xe49b69c19ef14ad2; 0xefbe4786384f25e3; 0x0fc19dc68b8cd5b5; 0x240ca1cc77ac9c65;
    0x2de92c6f592b0275; 0x4a7484aa6ea6e483; 0x5cb0a9dcbd41fbd4; 0x76f988da831153b5;
    0x983e5152ee66dfab; 0xa831c66d2db43210; 0xb00327c898fb213f; 0xbf597fc7beef0ee4;
    0xc6e00bf33da88fc2; 0xd5a79147930aa725; 0x06ca6351e003826f; 0x142929670a0e6e70;
    0x27b70a8546d22ffc; 0x2e1b21385c26c926; 0x4d2c6dfc5ac42aed; 0x53380d139d95b3df;
    0x650a73548baf63de; 0x766a0abb3c77b2a8; 0x81c2c92e47edaee6; 0x92722c851482353b;
    0xa2bfe8a14cf10364; 0xa81a664bbc423001; 0xc24b8b70d0f89791; 0xc76c51a30654be30;
    0xd192e819d6ef5218; 0xd69906245565a910; 0xf40e35855771202a; 0x106aa07032bbd1b8;
    0x19a4c116b8d2d0c8; 0x1e376c085141ab53; 0x2748774cdf8eeb99; 0x34b0bcb5e19b48a8;
    0x391c0cb3c5c95a63; 0x4ed8aa4ae3418acb; 0x5b9cca4f7763e373; 0x682e6ff3d6b2b8a3;
    0x748f82ee5defb2fc; 0x78a5636f43172f60; 0x84c87814a1f0ab72; 0x8cc702081a6439ec;
    0x90befffa23631e28; 0xa4506cebde82bde9; 0xbef9a3f7b2c67915; 0xc67178f2e372532b;
    0xca273eceea26619c; 0xd186b8c721c0c207; 0xeada7dd6cde0eb1e; 0xf57d4f7fee6ed178;
    0x06f067aa72176fba; 0x0a637dc5a2c898a6; 0x113f9804bef90dae; 0x1b710b35131c471b;
    0x28db77f523047d84; 0x32caab7b40c72493; 0x3c9ebe0a15c9bebc; 0x431d67c49c100d4c;
    0x4cc5d4becb3e42b6; 0x597f299cfc657e2a; 0x5fcb6fab3ad6faec; 0x6c44198c4a475817
  ].

Record hstate := mkH { h0 : Z; h1 : Z; h2 : Z; h3 : Z; h4 : Z; h5 : Z; h6 : Z; h7 : Z }.

Definition H384 : hstate :=
  mkH 0xcbbb9d5dc1059ed8 0x629a292a367cd507 0x9159015a3070dd17 0x152fecd8f70e5939
      0x67332667ffc00b31 0x8eb44a8768581511 0xdb0c2e0d64f98fa7 0x47b5481dbefa4fa4.

(** Big-endian integer of a byte list, and the [n] big-endian bytes of [w]. *)
Definition be_int (l : bytes) : Z := fold_left (fun acc b => acc * 256 + b) l 0.

Fixpoint be_bytes (n : nat) (w : Z) : bytes :=
  match n with
  | O => []
  | S n' => be_bytes n' (w / 256) ++ [w mod 256]
  end.

(** Message padding: [0x80], zeros, then the bit length on 16 bytes. *)
Definition pad (m : bytes) : bytes :=
  let L := Z.of_nat (length m) in
  m ++ [128] ++ repeat 0 (Z.to_nat ((111 - L) mod 128)) ++ be_bytes 16 (8 * L).

Fixpoint words (fuel : nat) (l : bytes) : list Z :=
  match fuel, l with
  | O, _ | _, [] => []
  | S f, _ => be_int (firstn 8 l) :: words f (skipn 8 l)
  end.

Fixpoint blocks (fuel : nat) (l : bytes) : list (list Z) :=
  match fuel, l with
  | O, _ | _, [] => []
  | S f, _ => words 16 (firstn 128 l) :: blocks f (skipn 128 l)
  end.

(** Message schedule: W[t] = s1(W[t-2]) + W[t-7] + s0(W[t-15]) + W[t-16]. *)
Fixpoint schedule (n : nat) (w : list Z) : list Z :=
  match n with
  | O => w
  | S n' =>
      let t := length w in
      let at_ i := nth (t - i) w 0 in
      schedule n' (w ++ [add64 (add64 (sigma1 (at_ 2%nat)) (at_ 7%nat))
                               (add64 (sigma0 (at_ 15%nat)) (at_ 16%nat))])
  end.

Definition round (s : hstate) (kw : Z * Z) : hstate :=
  let (k, w) := kw in
  let '(mkH a b c d e f g h) := s in
  let t1 := add64 (add64 (add64 h (Sigma1 e)) (add64 (Ch e f g) k)) w in
  let t2 := add64 (Sigma0 a) (Maj a b c) in
  mkH (add64 t1 t2) a b c (add64 d t1) e f g.

Definition compress (s : hstate) (blk : list Z) : hstate :=
  let W := schedule 64 blk in
  let '(mkH a b c d e f g h) := fold_left round (combine K W) s in
  mkH (add64 (h0 s) a) (add64 (h1 s) b) (add64 (h2 s) c) (add64 (h3 s) d)
      (add64 (h4 s) e) (add64 (h5 s) f) (add64 (h6 s) g) (add64 (h7 s) h).

(** SHA-384 keeps the first six words of the final state. *)
Definition digest_of (s : hstate) : bytes :=
  flat_map (be_bytes 8) [h0 s; h1 s; h2 s; h3 s; h4 s; h5 s].

Definition sha384 (m : bytes) : bytes :=
  let p := pad m in
  digest_of (fold_left compress (blocks (length p) p) H384).

(** [hmac.new(key, msg, hashlib.sha384).digest()], block size 128. *)
Definition block_size : nat := 128.

Definition hmac_sha384 (key msg : bytes) : bytes :=
  let key' := if (block_size <? length key)%nat then sha384 key else key in
  let kpad := key' ++ repeat 0 (block_size - length key') in
  let ipad := map (Z.lxor 0x36) kpad in
  let opad := map (Z.lxor 0x5c) kpad in
  sha384 (opad ++ sha384 (ipad ++ msg)).

(** [.hexdigest()]: two lowercase hex digits per byte. *)
Definition hex_digit (d : Z) : Z := if d <? 10 then 48 + d else 87 + d.
Definition hexdigest (b : bytes) : pystr :=
  flat_map (fun x => [hex_digit (x / 16); hex_digit (x mod 16)]) b.

End Sha384.

(** ** JSON values and [json.dumps] *)

Module Json.

(** A number is kept as its JSON lexeme ([json.dumps] prints [int] and
    [float] values through [int.__repr__] / [float.__repr__]). *)
Inductive json :=
| JNull
| JBool (b : bool)
| JNum (lexeme : pystr)
| JStr (s : pystr)
| JArr (l : list json)
| JObj (kvs : list (pystr * json)).

Fixpoint join (sep : pystr) (l : list pystr) : pystr :=
  match l with
  | [] => []
  | [x] => x
  | x :: l' => x ++ sep ++ join sep l'
  end.

(** Four lowercase hex digits, as in ['\\u{0:04x}'.format(n)]. *)
Definition hex4 (n : Z) : pystr :=
  map (fun i => Sha384.hex_digit ((n / 16 ^ i) mod 16)) [3; 2; 1; 0].

(** [py_encode_basestring_ascii] (json.dumps with [ensure_ascii=True]). *)
Definition escape_char (c : Z) : pystr :=
  if c =? 92 then py "\\"
  else if c =? 34 then [92; 34]
  else if c =? 10 then py "\n"
  else if c =? 13 then py "\r"
  else if c =? 9 then py "\t"
  else if c =? 8 then py "\b"
  else if c =? 12 then py "\f"
  else if (32 <=? c) && (c <=? 126) then [c]
  else if c <? 65536 then py "\u" ++ hex4 c
  else let n := c - 65536 in
       py "\u" ++ hex4 (Z.lor 55296 (Z.shiftr n 10)) ++
       py "\u" ++ hex4 (Z.lor 56320 (Z.land n 1023)).

Definition dump_str (s : pystr) : pystr := [34] ++ flat_map escape_char s ++ [34].

(** [json.dumps(v)] with the default separators [', '] and [': ']. *)
Fixpoint dumps (j : json) : pystr :=
  match j with
  | JNull => py "null"
  | JBool true => py "true"
  | JBool false => py "false"
  | JNum t => t
  | JStr s => dump_str s
  | JArr l => py "[" ++ join (py ", ") (map dumps l) ++ py "]"
  | JObj kvs =>
      py "{" ++ join (py ", ") (map (fun kv => dump_str (fst kv) ++ py ": " ++ dumps (snd kv)) kvs)
      ++ py "}"
  end.

(** [json.loads] (the C scanner, [strict=True]).  The input is the
    decoded text of the body; a [None] result is the [JSONDecodeError]. *)
Definition is_ws (c : Z) : bool := (c =? 32) || (c =? 9) || (c =? 10) || (c =? 13).

Fixpoint skip_ws (s : pystr) : pystr :=
  match s with
  | c :: r => if is_ws c then skip_ws r else s
  | [] => []
  end.

Definition is_digit (c : Z) : bool := (48 <=? c) && (c <=? 57).

Fixpoint span_digits (s : pystr) : pystr * pystr :=
  match s with
  | c :: r => if is_digit c then let (d, r') := span_digits r in (c :: d, r') else ([], s)
  | [] => ([], [])
  end.

Fixpoint starts_with (p s : pystr) : bool :=
  match p, s with
  | [], _ => true
  | a :: p', b :: s' => (a =? b) && starts_with p' s'
  | _ :: _, [] => false
  end.

(** NUMBER_RE: an optional minus, [0] or a nonzero digit followed by
    digits, an optional fraction [.digits], an optional exponent
    [e|E, optional sign, digits]. *)
Definition lex_int (s : pystr) : option (pystr * pystr) :=
  match s with
  | c :: r =>
      if c =? 48 then Some ([c], r)
      else if is_digit c then let (d, r') := span_digits r in Some (c :: d, r')
      else None
  | [] => None
  end.

Definition lex_frac (s : pystr) : pystr * pystr :=
  match s with
  | c :: r =>
      if c =? 46 then
        match span_digits r with
        | ([], _) => ([], s)
        | (d, r') => (c :: d, r')
        end
      else ([], s)
  | [] => ([], [])
  end.

Definition lex_exp (s : pystr) : pystr * pystr :=
  match s with
  | c :: r =>
      if (c =? 101) || (c =? 69) then
        let '(sg, r1) := match r with
                         | d :: r' => if (d =? 43) || (d =? 45) then ([d], r') else ([], r)
                         | [] => ([], [])
                         end in
        match span_digits r1 with
        | ([], _) => ([], s)
        | (d, r') => (c :: sg ++ d, r')
        end
      else ([], s)
  | [] => ([], [])
  end.

Definition lex_number (s : pystr) : option (pystr * pystr) :=
  let '(neg, s1) := match s with
                    | c :: r => if c =? 45 then ([c], r) else ([], s)
                    | [] => ([], [])
                    end in
  match lex_int s1 with
  | None => None
  | Some (i, r) =>
      let (f, r2) := lex_frac r in
      let (e, r3) := lex_exp r2 in
      Some (neg ++ i ++ f ++ e, r3)
  end.

Definition hex_val (c : Z) : option Z :=
  if is_digit c then Some (c - 48)
  else if (97 <=? c) && (c <=? 102) then Some (c - 87)
  else if (65 <=? c) && (c <=? 70) then Some (c - 55)
  else None.

(** Four hex digits after [\u]. *)
Definition scan_hex4 (s : pystr) : option (Z * pystr) :=
  match s with
  | a :: b :: c :: d :: r =>
      match hex_val a, hex_val b, hex_val c, hex_val d with
      | Some a', Some b', Some c', Some d' => Some (((a' * 16 + b') * 16 + c') * 16 + d', r)
      | _, _, _, _ => None
      end
  | _ => None
  end.

Definition simple_escape (e : Z) : option Z :=
  if e =? 34 then Some 34 else if e =? 92 then Some 92 else if e =? 47 then Some 47
  else if e =? 98 then Some 8 else if e =? 102 then Some 12 else if e =? 110 then Some 10
  else if e =? 114 then Some 13 else if e =? 116 then Some 9 else None.

(** [scanstring]: the input starts after the opening quote. *)
Fixpoint scanstring (fuel : nat) (acc : pystr) (s : pystr) : option (pystr * pystr) :=
  match fuel with
  | O => None
  | S f =>
      match s with
      | [] => None
      | c :: r =>
          if c =? 34 then Some (rev acc, r)
          else if c =? 92 then
            match r with
            | [] => None
            | e :: r' =>
                if e =? 117 then
                  match scan_hex4 r' with
                  | None => None
                  | Some (u, r'') =>
                      if (55296 <=? u) && (u <=? 56319) then
                        match r'' with
                        | b :: v :: r3 =>
                            if (b =? 92) && (v =? 117) then
                              match scan_hex4 r3 with
                              | None => None
                              | Some (u2, r4) =>
                                  if (56320 <=? u2) && (u2 <=? 57343) then
                                    scanstring f
                                      ((65536 + Z.shiftl (u - 55296) 10 + (u2 - 56320)) :: acc) r4
                                  else scanstring f (u :: acc) r''
                              end
                            else scanstring f (u :: acc) r''
                        | _ => scanstring f (u :: acc) r''
                        end
                      else scanstring f (u :: acc) r''
                  end
                else match simple_escape e with
                     | Some x => scanstring f (x :: acc) r'
                     | None => None
                     end
            end
          else if c <? 32 then None
          else scanstring f (c :: acc) r
      end
  end.

Fixpoint scan_value (fuel : nat) (s : pystr) : option (json * pystr) :=
  match fuel with
  | O => None
  | S f =>
      match s with
      | [] => None
      | c :: r =>
          if c =? 34 then
            match scanstring (S (length r)) [] r with
            | Some (t, r') => Some (JStr t, r')
            | None => None
            end
          else if c =? 123 then scan_object f (skip_ws r)
          else if c =? 91 then scan_array f (skip_ws r)
          else if starts_with (py "null") s then Some (JNull, skipn 4 s)
          else if starts_with (py "true") s then Some (JBool true, skipn 4 s)
          else if starts_with (py "false") s then Some (JBool false, skipn 5 s)
          else match lex_number s with
               | Some (t, r') => Some (JNum t, r')
               | None =>
                   if starts_with (py "NaN") s then Some (JNum (py "NaN"), skipn 3 s)
                   else if starts_with (py "Infinity") s then Some (JNum (py "Infinity"), skipn 8 s)
                   else if starts_with (py "-Infinity") s then Some (JNum (py "-Infinity"), skipn 9 s)
                   else None
               end
      end
  end
with scan_array (fuel : nat) (s : pystr) : option (json * pystr) :=
  match fuel with
  | O => None
  | S f =>
      match s with
      | c :: r => if c =? 93 then Some (JArr [], r) else array_items f [] s
      | [] => None
      end
  end
with array_items (fuel : nat) (acc : list json) (s : pystr) : option (json * pystr) :=
  match fuel with
  | O => None
  | S f =>
      match scan_value f s with
      | None => None
      | Some (v, r) =>
          match skip_ws r with
          | c :: r' =>
              if c =? 93 then Some (JArr (rev (v :: acc)), r')
              else if c =? 44 then array_items f (v :: acc) (skip_ws r')
              else None
          | [] => None
          end
      end
  end
with scan_object (fuel : nat) (s : pystr) : option (json * pystr) :=
  match fuel with
  | O => None
  | S f =>
      match s with
      | c :: r =>
          if c =? 125 then Some (JObj [], r)
          else if c =? 34 then object_items f [] r
          else None
      | [] => None
      end
  end
with object_items (fuel : nat) (acc : list (pystr * json)) (s : pystr)
  : option (json * pystr) :=
  match fuel with
  | O => None
  | S f =>
      match scanstring (S (length s)) [] s with
      | None => None
      | Some (k, r) =>
          match skip_ws r with
          | c :: r1 =>
              if c =? 58 then
                match scan_value f (skip_ws r1) with
                | None => None
                | Some (v, r2) =>
                    match skip_ws r2 with
                    | d :: r3 =>
                        if d =? 125 then Some (JObj (rev ((k, v) :: acc)), r3)
                        else if d =? 44 then
                          match skip_ws r3 with
                          | q :: r4 => if q =? 34 then object_items f ((k, v) :: acc) r4 else None
                          | [] => None
                          end
                        else None
                    | [] => None
                    end
                end
              else None
          | [] => None
          end
      end
  end.

(** Each nested call consumes at least one character of the input, so
    [2 * length s + 2] steps are enough. *)
Definition loads (s : pystr) : option json :=
  match scan_value (2 * length s + 2) (skip_ws s) with
  | Some (v, r) => match skip_ws r with [] => Some v | _ => None end
  | None => None
  end.

(** [d.get(k)] on the dict built from the pairs: the last binding wins. *)
Fixpoint dict_get (k : pystr) (kvs : list (pystr * json)) : option json :=
  match kvs with
  | [] => None
  | (k', v) :: r =>
      match dict_get k r with
      | Some w => Some w
      | None => if str_eqb k k' then Some v else None
      end
  end.

(** Number lexemes printed by [int.__repr__] / [float.__repr__] are ASCII. *)
Fixpoint num_ascii (j : json) : bool :=
  match j with
  | JNum t => is_ascii t
  | JArr l => forallb num_ascii l
  | JObj kvs => forallb (fun kv => let '(_, v) := kv in num_ascii v) kvs
  | _ => true
  end.

End Json.

Import Json.

(** ** Exceptions and results *)

(** The argument of [Exception.__init__] in [APIError.__init__]: either the
    Python object itself ([message = result.get('messages')] or a [str]
    result) or [repr(result)]. *)
Inductive api_message :=
| MsgObj (v : json)
| MsgRepr (v : json).

Inductive exn :=
| APIError (m : api_message)
| AttributeError
| TypeError
| UnicodeEncodeError
| JSONDecodeError
| NotImplementedError.

Inductive result (A : Type) :=
| Ok (a : A)
| Raise (e : exn).
Arguments Ok {A} a.
Arguments Raise {A} e.

(** ** [KunaAPI._generate_sign] *)

(** [self.private_key] is [None] when the client was built without keys:
    [None.encode] raises [AttributeError]. *)
Definition generate_sign (private_key : option pystr) (uri body nonce : pystr)
  : result pystr :=
  let payload := uri ++ nonce ++ body in
  match encode_ascii payload with
  | None => Raise UnicodeEncodeError
  | Some payload_bin =>
      match private_key with
      | None => Raise AttributeError
      | Some pk =>
          match encode_ascii pk with
          | None => Raise UnicodeEncodeError
          | Some private_key_bin =>
              Ok (Sha384.hexdigest (Sha384.hmac_sha384 private_key_bin payload_bin))
          end
      end
  end.

(** [APIError.__init__]: the argument is an [HTTPError] (its body is read
    with [json.load], whose [JSONDecodeError] escapes the constructor) or a
    Python object, a [str] being [JStr]. *)
Inductive api_arg :=
| ArgHTTPError (body : pystr)
| ArgObj (v : json).

Definition APIError_of_obj (v : json) : exn :=
  match v with
  | JObj kvs =>
      match dict_get (py "messages") kvs with
      | Some m => APIError (MsgObj m)
      | None => APIError (MsgRepr v)
      end
  | JStr s => APIError (MsgObj (JStr s))
  | _ => APIError (MsgRepr v)
  end.

Definition APIError_init (r : api_arg) : exn :=
  match r with
  | ArgHTTPError body =>
      match loads body with
      | None => JSONDecodeError
      | Some v => APIError_of_obj v
      end
  | ArgObj v => APIError_of_obj v
  end.

(** ** [urllib.parse.urlencode] with [quote_plus] *)

Module Url.

(** A lone surrogate ([U+D800] to [U+DFFF]): strict UTF-8 refuses it. *)
Definition is_surrogate (c : Z) : bool := (55296 <=? c) && (c <=? 57343).

(** [str.encode('utf-8')] of one code point; [None] is the
    [UnicodeEncodeError] of a lone surrogate. *)
Definition utf8 (c : Z) : option bytes :=
  if is_surrogate c then None
  else if c <? 128 then Some [c]
  else if c <? 2048 then Some [Z.lor 192 (Z.shiftr c 6); Z.lor 128 (Z.land c 63)]
  else if c <? 65536 then
    Some [Z.lor 224 (Z.shiftr c 12); Z.lor 128 (Z.land (Z.shiftr c 6) 63); Z.lor 128 (Z.land c 63)]
  else Some [Z.lor 240 (Z.shiftr c 18); Z.lor 128 (Z.land (Z.shiftr c 12) 63);
             Z.lor 128 (Z.land (Z.shiftr c 6) 63); Z.lor 128 (Z.land c 63)].

(** [s.encode('utf-8')] (errors='strict'). *)
Fixpoint encode_utf8 (s : pystr) : option bytes :=
  match s with
  | [] => Some []
  | c :: r =>
      match utf8 c, encode_utf8 r with
      | Some b, Some t => Some (b ++ t)
      | _, _ => None
      end
  end.

(** [_ALWAYS_SAFE]: ASCII letters, digits and [_.-~]. *)
Definition always_safe (b : Z) : bool :=
  ((65 <=? b) && (b <=? 90)) || ((97 <=? b) && (b <=? 122)) || is_digit b
  || (b =? 95) || (b =? 46) || (b =? 45) || (b =? 126).

Definition hex_upper (d : Z) : Z := if d <? 10 then 48 + d else 55 + d.

Definition quote_byte (safe : list Z) (b : Z) : pystr :=
  if always_safe b || existsb (Z.eqb b) safe then [b]
  else [37; hex_upper (b / 16); hex_upper (b mod 16)].

Definition quote (s : pystr) (safe : list Z) : option pystr :=
  match encode_utf8 s with
  | Some b => Some (flat_map (quote_byte safe) b)
  | None => None
  end.

(** [quote_plus(string, safe='')]. *)
Definition quote_plus (s : pystr) : option pystr :=
  if negb (existsb (Z.eqb 32) s) then quote s []
  else option_map (map (fun c => if c =? 32 then 43 else c)) (quote s [32]).

(** The [k=v] items of [urlencode(query)], in order. *)
Fixpoint urlencode_items (query : list (pystr * pystr)) : option (list pystr) :=
  match query with
  | [] => Some []
  | (k, v) :: r =>
      match quote_plus k, quote_plus v, urlencode_items r with
      | Some k', Some v', Some l => Some ((k' ++ [61] ++ v') :: l)
      | _, _, _ => None
      end
  end.

(** [urlencode(query)] for a dict of [str] values; [None] is its
    [UnicodeEncodeError]. *)
Definition urlencode (query : list (pystr * pystr)) : option pystr :=
  option_map (join [38]) (urlencode_items query).

End Url.

(** ** Requests, the network and [KunaAPI._request] *)

(** A header value: a [str], or [None] when [self.public_key] is [None]. *)
Inductive hval := HStr (s : pystr) | HNone.

Record request := mkRequest {
  req_url : pystr;
  req_data : pystr;
  req_headers : list (pystr * hval);
  req_method : pystr }.

(** What [urlopen] yields: a 2xx response or an [HTTPError], with the
    decoded text of the body. *)
Inductive response :=
| Resp2xx (body : pystr)
| RespHTTPError (status : Z) (body : pystr).

(** The environment: [int(time.time() * 1000)] and the server. *)
Record env := mkEnv { clock_ms : Z; server : request -> response }.

(** Client code: the requests handed to [urlopen], in order, and the outcome. *)
Definition M (A : Type) := env -> list request * result A.

Definition ret {A} (a : A) : M A := fun _ => ([], Ok a).
Definition raise {A} (e : exn) : M A := fun _ => ([], Raise e).
Definition bind {A B} (m : M A) (k : A -> M B) : M B :=
  fun E => match m E with
           | (t, Ok a) => let (t', r) := k a E in (t ++ t', r)
           | (t, Raise e) => (t, Raise e)
           end.
Definition ask : M env := fun E => ([], Ok E).
Definition of_result {A} (r : result A) : M A := fun _ => ([], r).

Notation "x <- m ;; k" := (bind m (fun x => k)) (at level 61, m at next level, right associativity).
Notation "m ;;; k" := (bind m (fun _ => k)) (at level 61, right associativity).

(** [urlopen(req)] followed by [json.load(resp)]; an [HTTPError] becomes
    [raise APIError(err)]. *)
Definition urlopen_json (req : request) : M json :=
  fun E => ([req],
    match server E req with
    | Resp2xx t => match loads t with Some v => Ok v | None => Raise JSONDecodeError end
    | RespHTTPError _ t => Raise (APIError_init (ArgHTTPError t))
    end).

(** [str(n)] of a Python [int]. *)
Fixpoint digits_rev (fuel : nat) (n : Z) : pystr :=
  match fuel with
  | O => []
  | S f => (48 + n mod 10) :: (if n <? 10 then [] else digits_rev f (n / 10))
  end.

Definition str_of_Z (n : Z) : pystr :=
  if n <? 0 then 45 :: rev (digits_rev (Z.to_nat (Z.log2 (- n) + 1)) (- n))
  else rev (digits_rev (Z.to_nat (Z.log2 n + 1)) n).

Definition API_VERSION : pystr := py "3".
Definition KEYS_NEED_MESSAGE : pystr :=
  [10] ++ py "    API initialized without public or private key. Only Public API is available."
  ++ [10] ++ pyq "    Get keys from `https://kuna.io/settings/api_tokens`." ++ [10] ++ py "    ".

Definition DEFAULT_HEADERS : list (pystr * hval) :=
  [(py "accept", HStr (py "application/json"));
   (py "content-type", HStr (py "application/json"));
   (py "user-agent", HStr (py "python-kuna/0.4.0"))].

(** [headers[k] = v] on a dict. *)
Fixpoint hset (k : pystr) (v : hval) (h : list (pystr * hval)) : list (pystr * hval) :=
  match h with
  | [] => [(k, v)]
  | (k', v') :: r => if str_eqb k k' then (k, v) :: r else (k', v') :: hset k v r
  end.

Definition hval_of (o : option pystr) : hval :=
  match o with Some s => HStr s | None => HNone end.

(** The client object; [__init__] fixes [endpoint] and [prefix]. *)
Record KunaAPI := mkKuna { public_key : option pystr; private_key : option pystr }.

Definition endpoint : pystr := py "https://api.kuna.io".
Definition prefix : pystr := py "/v3".

(** [_check_keys(error)]: with [error=True] the [APIError] is built but not
    raised; [warnings.warn] has no effect on the outcome. *)
Definition check_keys (self : KunaAPI) (error : bool) : M unit :=
  match public_key self, private_key self with
  | Some _, Some _ => ret tt
  | _, _ => if error then let _ := APIError (MsgObj (JStr KEYS_NEED_MESSAGE)) in ret tt
            else ret tt
  end.

(** [if args: path += '?' + urlencode(args)]; [None] when [urlencode]
    raises [UnicodeEncodeError]. *)
Definition with_query (path : pystr) (args : list (pystr * pystr)) : option pystr :=
  match args with [] => Some path | _ => option_map (fun q => path ++ py "?" ++ q) (Url.urlencode args) end.

Definition request_ (self : KunaAPI) (path : pystr) (args : list (pystr * pystr))
    (body : list (pystr * json)) (is_user_method : bool) : M json :=
  match with_query path args with
  | None => raise UnicodeEncodeError
  | Some path =>
      let uri := prefix ++ path in
      let url := endpoint ++ uri in
      let headers := DEFAULT_HEADERS in
      let body := dumps (JObj body) in
      hm <- (if is_user_method then
               check_keys self true ;;;
               E <- ask ;;
               let nonce := str_of_Z (clock_ms E) in
               let headers := hset (py "kun-nonce") (HStr nonce) headers in
               let headers := hset (py "kun-apikey") (hval_of (public_key self)) headers in
               sign <- of_result (generate_sign (private_key self) uri body nonce) ;;
               let headers := hset (py "kun-signature") (HStr sign) headers in
               ret (headers, py "POST")
             else ret (headers, py "GET")) ;;
      let (headers, method) := hm in
      urlopen_json (mkRequest url body headers method)
  end.

(** ** The API methods *)

(** The [symbols] argument of [tickers]: a [str], a [list] of [str], or
    anything else ([None] by default). *)
Inductive symbols_arg :=
| SymStr (s : pystr)
| SymList (l : list pystr)
| SymOther.

(** What a method returns to its caller: [None] or a JSON value. *)
Inductive pyval := PyNone | PyJson (j : json).

Definition json_of_num (n : Z) : json := JNum (str_of_Z n).
Definition json_of_opt (o : option Z) : json :=
  match o with Some n => json_of_num n | None => JNull end.
Definition json_of_ostr (o : option pystr) : json :=
  match o with Some t => JStr t | None => JNull end.
Definition json_of_obool (o : option bool) : json :=
  match o with Some b => JBool b | None => JNull end.

(** Truthiness of an optional [str] ([if market:]). *)
Definition truthy (o : option pystr) : option pystr :=
  match o with Some ((_ :: _) as s) => Some s | _ => None end.

Section Methods.

(** [str.lower] (Unicode case mapping) is a parameter of the model. *)
Variable py_lower : pystr -> pystr.

Variable self : KunaAPI.

(* PUBLIC API *)
Definition timestamp : M json := request_ self (py "/timestamp") [] [] false.

Definition tickers (symbols : symbols_arg) : M json :=
  let args := match symbols with
              | SymStr s => [(py "symbols", s)]
              | SymList l => [(py "symbols", join [44] l)]
              | SymOther => [(py "symbols", py "ALL")]
              end in
  request_ self (py "/tickers") args [] false.

Definition book (market : pystr) : M json :=
  request_ self (py "/book/" ++ market) [] [] false.

Definition history : M json := raise NotImplementedError.

Definition currencies : M json := request_ self (py "/currencies") [] [] false.

Definition exchange_rates (currency : option pystr) : M json :=
  let path := match truthy currency with
              | Some c => py "/exchange-rates/" ++ c
              | None => py "/exchange-rates"
              end in
  request_ self path [] [] false.

Definition markets : M json := request_ self (py "/markets") [] [] false.

Definition price_changes : M json := raise NotImplementedError.

Definition fees : M json := request_ self (py "/fees") [] [] false.

(* PRIVATE API *)
Definition http_test : M json := request_ self (py "/http_test") [] [] true.

Definition auth_me : M json := request_ self (py "/auth/me") [] [] true.

Definition auth_r_wallets : M json := request_ self (py "/auth/r/wallets") [] [] true.

Definition auth_history_trades (market : pystr) (date_from date_to : option Z) : M json :=
  let body := [(py "market", JStr market); (py "date_from", json_of_opt date_from);
               (py "date_to", json_of_opt date_to)] in
  request_ self (py "/auth/history/trades") [] body true.

Definition auth_r_orders (market : option pystr) : M json :=
  let path := match truthy market with
              | Some m => py "/auth/r/orders/" ++ m
              | None => py "/auth/r/orders"
              end in
  request_ self path [] [] true.

Definition auth_r_orders_hist (market : option pystr) : M json :=
  let path := match truthy market with
              | Some m => py "/auth/r/orders/" ++ m ++ py "/hist"
              | None => py "/auth/r/orders/hist"
              end in
  request_ self path [] [] true.

Definition available_types : list pystr :=
  [py "limit"; py "market"; py "market_by_quote"; py "limit_stop_loss"].

(** [f'"{type}" is not one of available types {available_types}'] *)
Definition order_type_message (type : pystr) : pystr :=
  [34] ++ type ++ [34] ++
  py " is not one of available types ('limit', 'market', 'market_by_quote', 'limit_stop_loss')".

Definition auth_w_order_submit (symbol type : pystr) (amount : Z)
    (price stop_price : option Z) : M json :=
  if negb (existsb (str_eqb (py_lower type)) available_types) then
    raise (APIError_init (ArgObj (JStr (order_type_message type))))
  else
    let body := [(py "symbol", JStr symbol); (py "type", JStr type);
                 (py "amount", json_of_num amount); (py "price", json_of_opt price);
                 (py "stop_price", json_of_opt stop_price)] in
    request_ self (py "/auth/w/order/submit") [] body true.

Definition order_cancel (order_id : Z) : M json :=
  request_ self (py "/order/cancel") [] [(py "order_id", json_of_num order_id)] true.

(* TRADE API, continued *)
Definition auth_r_order_trades (market : pystr) (order_id : Z) : M json :=
  request_ self (py "/auth/r/order/" ++ market ++ py ":" ++ str_of_Z order_id ++ py "/trades")
    [] [] true.

Definition order_cancel_multi (order_ids : list Z) : M json :=
  request_ self (py "/order/cancel/multi") [] [(py "order_ids", JArr (map json_of_num order_ids))]
    true.

(* MERCHANT API *)
Definition auth_payment_requests_address (currency : pystr) (blockchain callback_url : option pystr)
  : M json :=
  let body := [(py "currency", JStr currency); (py "blockchain", json_of_ostr blockchain);
               (py "callback_url", json_of_ostr callback_url)] in
  request_ self (py "/auth/payment_requests/address") [] body true.

Definition auth_deposit_info (currency : pystr) : M json :=
  request_ self (py "/auth/deposit/info") [] [(py "currency", JStr currency)] true.

Definition auth_deposit (currency : pystr) (amount : Z) (payment_service deposit_from : pystr)
  : M json :=
  let body := [(py "currency", JStr currency); (py "amount", json_of_num amount);
               (py "payment_service", JStr payment_service);
               (py "deposit_from", JStr deposit_from)] in
  request_ self (py "/auth/deposit") [] body true.

Definition auth_deposit_details (id : Z) : M json :=
  request_ self (py "/auth/deposit/details") [] [(py "id", json_of_num id)] true.

Definition auth_withdraw (withdraw_type : pystr) (amount : Z) (address gateway : option pystr)
    (fields : option (list (pystr * json))) (withdraw_to : option pystr)
    (fund_source_id : option Z) (payment_id : option pystr)
    (allow_blank_memo withdrawall : option bool) : M json :=
  let body := [(py "withdraw_type", JStr withdraw_type); (py "amount", json_of_num amount);
               (py "address", json_of_ostr address); (py "gateway", json_of_ostr gateway);
               (py "fields", match fields with Some f => JObj f | None => JNull end);
               (py "withdraw_to", json_of_ostr withdraw_to);
               (py "fund_source_id", json_of_opt fund_source_id);
               (py "payment_id", json_of_ostr payment_id);
               (py "allow_blank_memo", json_of_obool allow_blank_memo);
               (py "withdrawall", json_of_obool withdrawall)] in
  request_ self (py "/auth/withdraw") [] body true.

Definition auth_withdraw_details (id : Z) : M json :=
  request_ self (py "/auth/withdraw/details") [] [(py "id", json_of_num id)] true.

(** [type] is [None] by default: [None.lower()] raises [AttributeError]. *)
Definition assets_history (type : option pystr) : M json :=
  match type with
  | None => raise AttributeError
  | Some t =>
      if negb (existsb (str_eqb (py_lower t)) [py "withdraws"; py "deposits"]) then
        raise (APIError_init (ArgObj (JStr (py "type must by 'withdraws', 'deposits' or None"))))
      else
        let path := match truthy type with
                    | Some t' => py "/auth/assets-history/" ++ t'
                    | None => py "/auth/assets-history"
                    end in
        request_ self path [] [] true
  end.

Definition auth_merchant_deposit (currency : pystr) (amount : Z)
    (return_url callback_url : option pystr) : M json :=
  let body := [(py "currency", JStr currency); (py "amount", json_of_num amount);
               (py "payment_service", JStr (py "default"));
               (py "return_url", json_of_ostr return_url);
               (py "callback_url", json_of_ostr callback_url)] in
  request_ self (py "/auth/merchant/deposit") [] body true.

Definition auth_merchant_payment_services (currency : pystr) : M json :=
  request_ self (py "/auth/merchant/payment_services") [] [(py "currency", JStr currency)] true.

(* KUNA CODES *)
Definition kuna_codes_check (code : pystr) : M json :=
  request_ self (py "/kuna_codes/" ++ code ++ py "/check") [] [] false.

Definition kuna_codes (currency : pystr) (amount : Z)
    (recipient non_refundable_before comment private_comment : option pystr) : M json :=
  let body := [(py "currency", JStr currency); (py "amount", json_of_num amount);
               (py "recipient", json_of_ostr recipient);
               (py "non_refundable_before", json_of_ostr non_refundable_before);
               (py "comment", json_of_ostr comment);
               (py "private_comment", json_of_ostr private_comment)] in
  request_ self (py "/auth/kuna_codes") [] body true.

Definition auth_kuna_codes_details (id : Z) : M json :=
  request_ self (py "/auth/kuna_codes/details") [] [(py "id", json_of_num id)] true.

Definition auth_kuna_codes_redeem (code : pystr) : M json :=
  request_ self (py "/auth/kuna_codes/redeem") [] [(py "code", JStr code)] true.

Definition auth_kuna_codes_issued_by_me (page per_page : option Z) (order_by order_dir : option pystr)
    (status : option (list pystr)) : M json :=
  let body := [(py "page", json_of_opt page); (py "per_page", json_of_opt per_page);
               (py "order_by", json_of_ostr order_by); (py "order_dir", json_of_ostr order_dir);
               (py "status", match status with
                             | Some l => JArr (map JStr l)
                             | None => JNull
                             end)] in
  request_ self (py "/auth/kuna_codes/issued-by-me") [] body true.

Definition auth_kuna_codes_redeemed_by_me (page per_page : option Z)
    (order_by order_dir : option pystr) : M json :=
  let body := [(py "page", json_of_opt page); (py "per_page", json_of_opt per_page);
               (py "order_by", json_of_ostr order_by); (py "order_dir", json_of_ostr order_dir)] in
  request_ self (py "/auth/kuna_codes/redeemed-by-me") [] body true.

(* Old methods: each calls the new one and returns [None]; the
   [DeprecationWarning] does not change the outcome. *)
Definition get_server_time : M pyval := timestamp ;;; ret PyNone.

Definition get_recent_market_data (market : symbols_arg) : M pyval :=
  tickers market ;;; ret PyNone.

(** Calling [self.book] with the argument list [args]: [book] takes exactly one positional argument,
    any other arity raises [TypeError]. *)
Definition book_call (args : list pystr) : M json :=
  match args with
  | [market] => book market
  | _ => raise TypeError
  end.

(** [self.book()]: the market is not passed on. *)
Definition get_order_book (market : pystr) : M pyval := book_call [] ;;; ret PyNone.

Definition get_trades_history (market : pystr) : M pyval := history ;;; ret PyNone.

Definition get_user_account_info : M pyval := auth_me ;;; ret PyNone.

Definition get_orders (market : option pystr) : M pyval :=
  auth_r_orders market ;;; ret PyNone.

Definition put_order (side : pystr) (amount : Z) (symbol : pystr) (price : option Z) : M pyval :=
  let amount := if str_eqb (py_lower side) (py "buy") then Z.abs amount else -1 * Z.abs amount in
  auth_w_order_submit symbol (py "limit") amount price None ;;; ret PyNone.

Definition cancel_order (order_id : Z) : M pyval := order_cancel order_id ;;; ret PyNone.

Definition get_trade_history (market : option pystr) : M pyval :=
  auth_r_orders_hist market ;;; ret PyNone.

End Methods.

(** What an old method's caller observes: the requests of the new method,
    its exception, and [None] in place of its result. *)
Definition discard {A} (p : list request * result A) : list request * result pyval :=
  (fst p, match snd p with Ok _ => Ok PyNone | Raise e => Raise e end).

(** [int(s)] on a string of decimal digits. *)
Definition int_of_digits (s : pystr) : Z := fold_left (fun a c => a * 10 + (c - 48)) s 0.

(** [str.lower] on ASCII letters (Python's mapping agrees with it there). *)
Definition ascii_lower (s : pystr) : pystr :=
  map (fun c => if (65 <=? c) && (c <=? 90) then c + 32 else c) s.

Example sha384_abc :
  Sha384.hexdigest (Sha384.sha384 (py "abc")) =
  py "cb00753f45a35e8bb5a03d699ac65007272c32ab0eded1631a8b605a43ff5bed8086072ba1e7cc2358baeca134c825a7".
Proof. vm_compute. reflexivity. Qed.

Example hmac_reference :
  generate_sign (Some (py "secret")) (py "/v3/auth/me") (dumps (JObj [])) (py "1612345678901") =
  Ok (py "d4e44eb5c402eba5fd56c4e1520af67e29218a7c12f454dfe2423c083f193bdc213c2dde5b0cbde82bd294fb95789056").
Proof. vm_compute. reflexivity. Qed.

Example loads_messages :
  loads (pyq "{ `messages` : [`b\u00e9d`, 1.5e3, null, -0, true] , `x`:{}}") =
  Some (JObj [(py "messages", JArr [JStr [98; 233; 100]; JNum (py "1.5e3"); JNull;
                                     JNum (py "-0"); JBool true]);
              (py "x", JObj [])]).
Proof. vm_compute. reflexivity. Qed.

Example loads_rejects :
  loads (py "Internal Server Error") = None /\ loads (pyq "[1,]") = None /\
  loads (pyq "{`a`:1} x") = None /\ loads (py "01") = None.
Proof. vm_compute. repeat split. Qed.

Example dumps_sample :
  dumps (JObj [(py "a", JArr [JNull; JNum (py "1")]); ([233; 10; 128512], JObj [])]) =
  pyq "{`a`: [null, 1], `\u00e9\n\ud83d\ude00`: {}}".
Proof. vm_compute. reflexivity. Qed.

Definition E_test : env :=
  mkEnv 1612345678901 (fun _ => Resp2xx (pyq "{`ok`: true}")).

Example tickers_list_test :
  fst (tickers (mkKuna None None) (SymList [py "a"; py "b c"; py "d/e"]) E_test) =
  [mkRequest (py "https://api.kuna.io/v3/tickers?symbols=a%2Cb+c%2Cd%2Fe") (py "{}")
     DEFAULT_HEADERS (py "GET")].
Proof. vm_compute. reflexivity. Qed.

Example auth_me_test :
  request_ (mkKuna (Some (py "pub")) (Some (py "secret"))) (py "/auth/me") [] [] true E_test =
  ([mkRequest (py "https://api.kuna.io/v3/auth/me") (py "{}")
     (DEFAULT_HEADERS ++ [(py "kun-nonce", HStr (py "1612345678901"));
                          (py "kun-apikey", HStr (py "pub"));
                          (py "kun-signature", HStr (py "d4e44eb5c402eba5fd56c4e1520af67e29218a7c12f454dfe2423c083f193bdc213c2dde5b0cbde82bd294fb95789056"))])
     (py "POST")],
   Ok (JObj [(py "ok", JBool true)])).
Proof. vm_compute. reflexivity. Qed.

(** ** Lemmas on strings, JSON and the digest *)

Lemma is_ascii_spec (s : pystr) :
  is_ascii s = true <-> (forall c, In c s -> 0 <= c < 128).
Proof.
  unfold is_ascii, is_ascii_char. rewrite forallb_forall.
  split; intros H c Hc; specialize (H c Hc).
  - apply andb_true_iff in H. rewrite Z.leb_le, Z.ltb_lt in H. lia.
  - apply andb_true_iff. rewrite Z.leb_le, Z.ltb_lt. lia.
Qed.

Lemma is_ascii_app (a b : pystr) : is_ascii (a ++ b) = is_ascii a && is_ascii b.
Proof. apply forallb_app. Qed.

Section JsonInd.
Variable P : json -> Prop.
Hypothesis P_null : P JNull.
Hypothesis P_bool : forall b, P (JBool b).
Hypothesis P_num : forall t, P (JNum t).
Hypothesis P_str : forall s, P (JStr s).
Hypothesis P_arr : forall l, Forall P l -> P (JArr l).
Hypothesis P_obj : forall kvs, Forall (fun kv => P (snd kv)) kvs -> P (JObj kvs).

Fixpoint json_ind' (j : json) : P j :=
  match j with
  | JNull => P_null
  | JBool b => P_bool b
  | JNum t => P_num t
  | JStr s => P_str s
  | JArr l =>
      P_arr l ((fix go (l : list json) : Forall P l :=
                  match l with
                  | [] => Forall_nil P
                  | x :: r => Forall_cons x (json_ind' x) (go r)
                  end) l)
  | JObj kvs =>
      P_obj kvs ((fix go (l : list (pystr * json)) : Forall (fun kv => P (snd kv)) l :=
                    match l with
                    | [] => Forall_nil _
                    | (k, v) :: r => Forall_cons (k, v) (json_ind' v) (go r)
                    end) kvs)
  end.
End JsonInd.

Lemma hex_digit_ascii (d : Z) : 0 <= d < 16 -> 0 <= Sha384.hex_digit d < 128.
Proof. unfold Sha384.hex_digit. destruct (d <? 10); lia. Qed.

Lemma hex4_ascii (n : Z) : is_ascii (hex4 n) = true.
Proof.
  apply is_ascii_spec. unfold hex4. intros c Hc. apply in_map_iff in Hc.
  destruct Hc as [i [<- _]]. apply hex_digit_ascii, Z.mod_pos_bound. lia.
Qed.

Lemma escape_char_ascii (c : Z) : is_ascii (escape_char c) = true.
Proof.
  unfold escape_char.
  repeat match goal with
         | |- context [if ?b then _ else _] => destruct b eqn:?
         end;
    rewrite ?is_ascii_app, ?hex4_ascii; try reflexivity.
  apply is_ascii_spec. intros x [<- | []].
  repeat match goal with H : _ && _ = true |- _ => apply andb_true_iff in H; destruct H end.
  rewrite Z.leb_le in *. lia.
Qed.

Lemma flat_map_ascii (f : Z -> pystr) (s : pystr) :
  (forall c, is_ascii (f c) = true) -> is_ascii (flat_map f s) = true.
Proof.
  intros Hf. induction s as [|c s IH]; [reflexivity|].
  cbn [flat_map]. rewrite is_ascii_app, Hf, IH. reflexivity.
Qed.

Lemma dump_str_ascii (s : pystr) : is_ascii (dump_str s) = true.
Proof.
  unfold dump_str. rewrite !is_ascii_app, flat_map_ascii; [reflexivity|].
  apply escape_char_ascii.
Qed.

Lemma join_ascii (sep : pystr) (l : list pystr) :
  is_ascii sep = true -> Forall (fun x => is_ascii x = true) l -> is_ascii (join sep l) = true.
Proof.
  intros Hs Hl. induction Hl as [|x l Hx Hl IH]; [reflexivity|].
  destruct l as [|y l]; [exact Hx|].
  change (join sep (x :: y :: l)) with (x ++ sep ++ join sep (y :: l)).
  rewrite !is_ascii_app, Hx, Hs, IH. reflexivity.
Qed.

(** [json.dumps] output is ASCII ([ensure_ascii=True]). *)
Lemma dumps_ascii (j : json) : num_ascii j = true -> is_ascii (dumps j) = true.
Proof.
  induction j as [| b | t | s | l IH | kvs IH] using json_ind'; intros Hj.
  - reflexivity.
  - destruct b; reflexivity.
  - exact Hj.
  - apply dump_str_ascii.
  - cbn [dumps]. rewrite !is_ascii_app, join_ascii; [reflexivity | reflexivity |].
    apply Forall_map. cbn [num_ascii] in Hj. rewrite forallb_forall in Hj.
    apply Forall_forall. intros x Hx. rewrite Forall_forall in IH. auto.
  - cbn [dumps]. rewrite !is_ascii_app, join_ascii; [reflexivity | reflexivity |].
    apply Forall_map. cbn [num_ascii] in Hj. rewrite forallb_forall in Hj.
    apply Forall_forall. intros [k v] Hx. rewrite Forall_forall in IH.
    specialize (IH (k, v) Hx). specialize (Hj (k, v) Hx).
    cbn [fst snd] in *. rewrite !is_ascii_app, dump_str_ascii, IH; auto.
Qed.

Lemma digits_rev_ascii (fuel : nat) (n : Z) : is_ascii (digits_rev fuel n) = true.
Proof.
  revert n. induction fuel as [|f IH]; intros n; [reflexivity|].
  cbn [digits_rev]. change (is_ascii ([48 + n mod 10] ++ (if n <? 10 then [] else digits_rev f (n / 10))) = true).
  rewrite is_ascii_app. apply andb_true_iff. split.
  - apply is_ascii_spec. intros c [<- | []]. pose proof (Z.mod_pos_bound n 10). lia.
  - destruct (n <? 10); [reflexivity | apply IH].
Qed.

Lemma is_ascii_rev (s : pystr) : is_ascii (rev s) = is_ascii s.
Proof.
  destruct (is_ascii s) eqn:H.
  - apply is_ascii_spec. intros c Hc. apply in_rev in Hc. revert c Hc. apply is_ascii_spec, H.
  - destruct (is_ascii (rev s)) eqn:H'; [|reflexivity].
    rewrite <- H. symmetry. apply is_ascii_spec. intros c Hc.
    apply (proj1 (is_ascii_spec _) H'). apply in_rev. rewrite rev_involutive. exact Hc.
Qed.

(** The nonce [str(int(time.time() * 1000))] is ASCII. *)
Lemma str_of_Z_ascii (n : Z) : is_ascii (str_of_Z n) = true.
Proof.
  unfold str_of_Z. destruct (n <? 0).
  - change (is_ascii ([45] ++ rev (digits_rev (Z.to_nat (Z.log2 (- n) + 1)) (- n))) = true).
    rewrite is_ascii_app, is_ascii_rev, digits_rev_ascii. reflexivity.
  - rewrite is_ascii_rev. apply digits_rev_ascii.
Qed.

Lemma be_bytes_length (n : nat) (w : Z) : length (Sha384.be_bytes n w) = n.
Proof.
  revert w. induction n as [|n IH]; intros w; [reflexivity|].
  cbn [Sha384.be_bytes]. rewrite length_app, IH. simpl. lia.
Qed.

Lemma be_bytes_range (n : nat) (w : Z) : forall b, In b (Sha384.be_bytes n w) -> 0 <= b < 256.
Proof.
  revert w. induction n as [|n IH]; intros w b Hb; [destruct Hb|].
  cbn [Sha384.be_bytes] in Hb. apply in_app_iff in Hb. destruct Hb as [Hb | [<- | []]].
  - exact (IH _ _ Hb).
  - apply Z.mod_pos_bound. lia.
Qed.

(** A SHA-384 digest is 48 bytes long, whatever the message. *)
Lemma sha384_length (m : bytes) : length (Sha384.sha384 m) = 48%nat.
Proof.
  unfold Sha384.sha384. cbv zeta. generalize (fold_left Sha384.compress (Sha384.blocks (length (Sha384.pad m)) (Sha384.pad m)) Sha384.H384). intros st.
  unfold Sha384.digest_of. cbn [flat_map]. rewrite !length_app, !be_bytes_length. reflexivity.
Qed.

Lemma sha384_range (m : bytes) : forall b, In b (Sha384.sha384 m) -> 0 <= b < 256.
Proof.
  intros b Hb. unfold Sha384.sha384, Sha384.digest_of in Hb.
  apply in_flat_map in Hb. destruct Hb as [w [_ Hw]]. exact (be_bytes_range _ _ _ Hw).
Qed.

Definition is_lower_hex (c : Z) : bool :=
  ((48 <=? c) && (c <=? 57)) || ((97 <=? c) && (c <=? 102)).

Lemma hexdigest_length (b : bytes) : length (Sha384.hexdigest b) = (2 * length b)%nat.
Proof.
  induction b as [|x b IH]; [reflexivity|].
  unfold Sha384.hexdigest in *. cbn [flat_map]. rewrite length_app, IH. simpl. lia.
Qed.

Lemma hexdigest_lower_hex (b : bytes) :
  (forall x, In x b -> 0 <= x < 256) -> forallb is_lower_hex (Sha384.hexdigest b) = true.
Proof.
  intros Hb. apply forallb_forall. intros c Hc. unfold Sha384.hexdigest in Hc.
  apply in_flat_map in Hc. destruct Hc as [x [Hx Hc]]. specialize (Hb x Hx).
  assert (H16 : forall d, 0 <= d < 16 -> is_lower_hex (Sha384.hex_digit d) = true).
  { intros d Hd. unfold is_lower_hex, Sha384.hex_digit.
    destruct (d <? 10) eqn:E; apply orb_true_iff; [left | right];
      rewrite andb_true_iff, !Z.leb_le; rewrite ?Z.ltb_lt, ?Z.ltb_ge in E; lia. }
  destruct Hc as [<- | [<- | []]].
  - apply H16. split; [apply Z.div_pos; lia | apply Z.div_lt_upper_bound; lia].
  - apply H16, Z.mod_pos_bound. lia.
Qed.

Lemma generate_sign_ok (pk uri body nonce : pystr) :
  is_ascii (uri ++ nonce ++ body) = true -> is_ascii pk = true ->
  generate_sign (Some pk) uri body nonce =
  Ok (Sha384.hexdigest (Sha384.hmac_sha384 pk (uri ++ nonce ++ body))).
Proof.
  intros Hp Hk. unfold generate_sign, encode_ascii. rewrite Hp, Hk. reflexivity.
Qed.

(** [_check_keys(error=True)] never raises: the [APIError] is not raised. *)
Lemma check_keys_noop (self : KunaAPI) (error : bool) : check_keys self error = ret tt.
Proof.
  unfold check_keys. destruct (public_key self), (private_key self), error; reflexivity.
Qed.

(** ** Signing (C2, C3, C5) *)

(** C2: an authenticated request carries, in [kun-signature], the lowercase
    hex HMAC-SHA384 keyed by the private key over [uri + nonce + JSON(body)]
    with no separator, [kun-nonce] being that nonce; the empty body is [{}];
    on the spec's example the signature is the value that Python's
    [hmac.new(b'secret', b'/v3/auth/me1612345678901{}', hashlib.sha384)]
    gives.  Stated for a path and query that [urlencode] can encode
    ([with_query] gives [Some q]; every authenticated method passes no
    query), since a lone surrogate in a query raises before signing. *)
Theorem signature_is_hmac_sha384 (self : KunaAPI) (pk path q : pystr)
    (args : list (pystr * pystr)) (body : list (pystr * json)) (E : env) :
  private_key self = Some pk -> is_ascii pk = true ->
  with_query path args = Some q -> is_ascii q = true -> num_ascii (JObj body) = true ->
  let uri := prefix ++ q in
  let nonce := str_of_Z (clock_ms E) in
  fst (request_ self path args body true E) =
    [mkRequest (endpoint ++ uri) (dumps (JObj body))
       (DEFAULT_HEADERS ++
          [(py "kun-nonce", HStr nonce);
           (py "kun-apikey", hval_of (public_key self));
           (py "kun-signature",
             HStr (Sha384.hexdigest (Sha384.hmac_sha384 pk (uri ++ nonce ++ dumps (JObj body)))))])
       (py "POST")]
  /\ dumps (JObj []) = py "{}"
  /\ generate_sign (Some (py "secret")) (py "/v3/auth/me") (dumps (JObj [])) (py "1612345678901")
     = Ok (py "d4e44eb5c402eba5fd56c4e1520af67e29218a7c12f454dfe2423c083f193bdc213c2dde5b0cbde82bd294fb95789056").
Proof.
  intros Hpk Hk Hw Hq Hb uri nonce.
  split; [|split; [reflexivity | vm_compute; reflexivity]].
  unfold request_. rewrite Hw, check_keys_noop.
  cbv beta iota zeta delta [bind ret ask of_result]. rewrite Hpk.
  rewrite generate_sign_ok; [reflexivity | | exact Hk].
  rewrite !is_ascii_app, str_of_Z_ascii, dumps_ascii, Hq by exact Hb. reflexivity.
Qed.

Lemma signature_is_hmac_sha384_witness :
  (private_key (mkKuna (Some (py "pub")) (Some (py "secret"))) = Some (py "secret") /\
   is_ascii (py "secret") = true /\
   with_query (py "/auth/me") [] = Some (py "/auth/me") /\
   is_ascii (py "/auth/me") = true /\ num_ascii (JObj []) = true) /\
  let self := mkKuna (Some (py "pub")) (Some (py "secret")) in
  let uri := prefix ++ py "/auth/me" in
  let nonce := str_of_Z (clock_ms E_test) in
  fst (request_ self (py "/auth/me") [] [] true E_test) =
    [mkRequest (endpoint ++ uri) (dumps (JObj []))
       (DEFAULT_HEADERS ++
          [(py "kun-nonce", HStr nonce);
           (py "kun-apikey", hval_of (public_key self));
           (py "kun-signature",
             HStr (Sha384.hexdigest (Sha384.hmac_sha384 (py "secret") (uri ++ nonce ++ dumps (JObj [])))))])
       (py "POST")].
Proof.
  split; [repeat split; reflexivity|].
  exact (proj1 (signature_is_hmac_sha384 (mkKuna (Some (py "pub")) (Some (py "secret")))
                  (py "secret") (py "/auth/me") (py "/auth/me") [] [] E_test
                  eq_refl eq_refl eq_refl eq_refl eq_refl)).
Defined.

(** C3: on ASCII inputs signing succeeds with a unique result (the function
    reads nothing but its arguments), 96 lowercase hex characters. *)
Theorem sign_deterministic_96_hex (pk uri body nonce : pystr) :
  is_ascii pk = true -> is_ascii uri = true -> is_ascii nonce = true -> is_ascii body = true ->
  exists sig,
    generate_sign (Some pk) uri body nonce = Ok sig /\
    (forall r, generate_sign (Some pk) uri body nonce = r -> r = Ok sig) /\
    length sig = 96%nat /\ forallb is_lower_hex sig = true.
Proof.
  intros Hk Hu Hn Hb.
  exists (Sha384.hexdigest (Sha384.hmac_sha384 pk (uri ++ nonce ++ body))).
  assert (Hs : generate_sign (Some pk) uri body nonce =
               Ok (Sha384.hexdigest (Sha384.hmac_sha384 pk (uri ++ nonce ++ body)))).
  { apply generate_sign_ok; [|exact Hk]. rewrite !is_ascii_app, Hu, Hn, Hb. reflexivity. }
  split; [exact Hs|]. split; [intros r <-; exact Hs|]. split.
  - rewrite hexdigest_length. unfold Sha384.hmac_sha384. rewrite sha384_length. reflexivity.
  - apply hexdigest_lower_hex. unfold Sha384.hmac_sha384. apply sha384_range.
Qed.

Lemma sign_deterministic_96_hex_witness :
  (is_ascii (py "secret") = true /\ is_ascii (py "/v3/auth/me") = true /\
   is_ascii (py "1612345678901") = true /\ is_ascii (py "{}") = true) /\
  exists sig,
    generate_sign (Some (py "secret")) (py "/v3/auth/me") (py "{}") (py "1612345678901") = Ok sig /\
    (forall r, generate_sign (Some (py "secret")) (py "/v3/auth/me") (py "{}") (py "1612345678901") = r
               -> r = Ok sig) /\
    length sig = 96%nat /\ forallb is_lower_hex sig = true.
Proof.
  split; [repeat split; reflexivity|].
  apply (sign_deterministic_96_hex (py "secret") (py "/v3/auth/me") (py "{}") (py "1612345678901"));
    reflexivity.
Defined.

(** C5: a non-ASCII character anywhere in [uri + nonce + body] makes
    [payload.encode('ascii')] fail: [UnicodeEncodeError], no signature. *)
Theorem non_ascii_payload_fails (private_key : option pystr) (uri body nonce : pystr) :
  (exists c, In c (uri ++ nonce ++ body) /\ ~ (0 <= c < 128)) ->
  generate_sign private_key uri body nonce = Raise UnicodeEncodeError.
Proof.
  intros [c [Hin Hc]]. unfold generate_sign, encode_ascii.
  destruct (is_ascii (uri ++ nonce ++ body)) eqn:Ha; [|reflexivity].
  exfalso. apply Hc. exact (proj1 (is_ascii_spec _) Ha c Hin).
Qed.

Lemma non_ascii_payload_fails_witness :
  (exists c, In c (py "/v3/auth/r/orders/" ++ [1082] ++ py "1612345678901" ++ py "{}")
             /\ ~ (0 <= c < 128)) /\
  generate_sign (Some (py "secret")) (py "/v3/auth/r/orders/" ++ [1082]) (py "{}") (py "1612345678901")
  = Raise UnicodeEncodeError.
Proof.
  assert (H : exists c, In c (py "/v3/auth/r/orders/" ++ [1082] ++ py "1612345678901" ++ py "{}")
                        /\ ~ (0 <= c < 128)).
  { exists 1082. split; [vm_compute; tauto | lia]. }
  split; [exact H|].
  apply non_ascii_payload_fails. rewrite <- app_assoc. exact H.
Defined.

(** ** Requests and methods *)

Lemma str_eqb_true (a b : pystr) : str_eqb a b = true <-> a = b.
Proof. unfold str_eqb. destruct (list_eq_dec Z.eq_dec a b); split; congruence. Qed.

Lemma existsb_str_eqb (x : pystr) (l : list pystr) : existsb (str_eqb x) l = true <-> In x l.
Proof.
  rewrite existsb_exists. split.
  - intros [y [Hy Heq]]. apply str_eqb_true in Heq. subst. exact Hy.
  - intros Hx. exists x. split; [exact Hx | apply str_eqb_true; reflexivity].
Qed.

Lemma existsb_str_eqb_false (x : pystr) (l : list pystr) :
  ~ In x l -> existsb (str_eqb x) l = false.
Proof.
  intros Hx. destruct (existsb (str_eqb x) l) eqn:E; [|reflexivity].
  exfalso. apply Hx, existsb_str_eqb, E.
Qed.

(** Every request [_request] hands to [urlopen] goes to
    [endpoint + prefix + path[?query]]. *)
Lemma request_urls (self : KunaAPI) (path : pystr) (args : list (pystr * pystr))
    (body : list (pystr * json)) (user : bool) (E : env) :
  forall r, In r (fst (request_ self path args body user E)) ->
            exists q, with_query path args = Some q /\ req_url r = endpoint ++ prefix ++ q.
Proof.
  intros r. unfold request_. destruct (with_query path args) as [q|]; [|intros []].
  intros Hr. exists q. split; [reflexivity|]. revert r Hr. rewrite check_keys_noop.
  cbv beta iota zeta delta [bind ret ask of_result urlopen_json]. destruct user.
  - destruct (generate_sign _ _ _ _); cbn [fst app]; [intros r [<- | []]; reflexivity | intros r []].
  - cbn [fst app]. intros r [<- | []]. reflexivity.
Qed.

Definition E_ts : env := mkEnv 1612345678901 (fun _ => Resp2xx (py "1612345678")).

Definition E_422 : env :=
  mkEnv 1612345678901 (fun _ => RespHTTPError 422 (pyq "{`messages`: [`bad`]}")).

Definition E_500 : env :=
  mkEnv 1612345678901 (fun _ => RespHTTPError 500 (py "Internal Server Error")).

(** C1 (failing input): [_check_keys(error=True)] raises nothing.  Without
    keys, [auth_me] fails in [_generate_sign] on [None.encode] with an
    [AttributeError]; with only the private key it hands a request whose
    [kun-apikey] is [None] to [urlopen]. *)
Theorem auth_without_keys_not_rejected :
  auth_me (mkKuna None None) E_test = ([], Raise AttributeError) /\
  exists req,
    fst (auth_me (mkKuna None (Some (py "secret"))) E_test) = [req] /\
    In (py "kun-apikey", HNone) (req_headers req) /\
    req_url req = py "https://api.kuna.io/v3/auth/me".
Proof.
  split; [vm_compute; reflexivity|].
  eexists. split; [vm_compute; reflexivity|]. vm_compute. split; [tauto | reflexivity].
Qed.

(** C4: an order type whose lowercase form is not one of the four types is
    rejected with an [APIError] before any request is sent. *)
Theorem order_submit_rejects_unknown_type (py_lower : pystr -> pystr) (self : KunaAPI)
    (symbol type : pystr) (amount : Z) (price stop_price : option Z) (E : env) :
  ~ In (py_lower type) available_types ->
  auth_w_order_submit py_lower self symbol type amount price stop_price E =
  ([], Raise (APIError (MsgObj (JStr (order_type_message type))))).
Proof.
  intros Hn. unfold auth_w_order_submit. rewrite existsb_str_eqb_false by exact Hn.
  reflexivity.
Qed.

Lemma order_submit_rejects_unknown_type_witness :
  ~ In (ascii_lower (py "invalid_type")) available_types /\
  auth_w_order_submit ascii_lower (mkKuna (Some (py "pub")) (Some (py "secret")))
    (py "ethuah") (py "invalid_type") 1 (Some 600) None E_test =
  ([], Raise (APIError (MsgObj (JStr (order_type_message (py "invalid_type")))))).
Proof.
  assert (H : ~ In (ascii_lower (py "invalid_type")) available_types).
  { vm_compute. intros [H | [H | [H | [H | []]]]]; discriminate H. }
  split; [exact H|]. apply order_submit_rejects_unknown_type. exact H.
Defined.

(** C6 (amended): an [HTTPError] whose body is a JSON object with a
    [messages] field raises [APIError] carrying that value (the 422 example
    gives [['bad']]); a body that is not JSON makes [json.load] in
    [APIError.__init__] raise [JSONDecodeError], and no [APIError] is
    raised. *)
Theorem http_error_message (req : request) (E : env) (status : Z) (text : pystr) :
  server E req = RespHTTPError status text ->
  (forall kvs m, loads text = Some (JObj kvs) -> dict_get (py "messages") kvs = Some m ->
     urlopen_json req E = ([req], Raise (APIError (MsgObj m)))) /\
  (loads text = None -> urlopen_json req E = ([req], Raise JSONDecodeError)) /\
  snd (timestamp (mkKuna None None) E_422) = Raise (APIError (MsgObj (JArr [JStr (py "bad")]))).
Proof.
  intros Hs. split; [|split].
  - intros kvs m Hl Hm. unfold urlopen_json. rewrite Hs. cbn [APIError_init].
    rewrite Hl. cbn [APIError_of_obj]. rewrite Hm. reflexivity.
  - intros Hl. unfold urlopen_json. rewrite Hs. cbn [APIError_init]. rewrite Hl. reflexivity.
  - vm_compute. reflexivity.
Qed.

Lemma http_error_message_witness :
  server E_422 (mkRequest (py "https://api.kuna.io/v3/timestamp") (py "{}") DEFAULT_HEADERS (py "GET"))
    = RespHTTPError 422 (pyq "{`messages`: [`bad`]}") /\
  urlopen_json (mkRequest (py "https://api.kuna.io/v3/timestamp") (py "{}") DEFAULT_HEADERS (py "GET")) E_422
    = ([mkRequest (py "https://api.kuna.io/v3/timestamp") (py "{}") DEFAULT_HEADERS (py "GET")],
       Raise (APIError (MsgObj (JArr [JStr (py "bad")])))).
Proof.
  split; [reflexivity|].
  apply (proj1 (http_error_message
                  (mkRequest (py "https://api.kuna.io/v3/timestamp") (py "{}") DEFAULT_HEADERS (py "GET"))
                  E_422 422 (pyq "{`messages`: [`bad`]}") eq_refl)
           [(py "messages", JArr [JStr (py "bad")])]); vm_compute; reflexivity.
Defined.

(** C6 counterexample: a 500 response with the plain-text body
    [Internal Server Error] ends in [JSONDecodeError], not in an [APIError]
    carrying the raw text. *)
Lemma http_error_raw_text_not_carried :
  snd (timestamp (mkKuna None None) E_500) = Raise JSONDecodeError /\
  snd (timestamp (mkKuna None None) E_500) <> Raise (APIError (MsgObj (JStr (py "Internal Server Error")))).
Proof. vm_compute. split; [reflexivity | discriminate]. Qed.

Lemma with_query_single (path k kq v : pystr) :
  Url.quote_plus k = Some kq ->
  with_query path [(k, v)] =
  option_map (fun q => path ++ py "?" ++ kq ++ [61] ++ q) (Url.quote_plus v).
Proof.
  intros Hk. unfold with_query, Url.urlencode. cbn [Url.urlencode_items]. rewrite Hk.
  destruct (Url.quote_plus v); reflexivity.
Qed.

(** C7 (amended): [tickers] sends one GET to [/v3/tickers] whose query is
    [symbols=] followed by [quote_plus] of [ALL], of the comma-joined list,
    or of the string; so [['a','b']] gives [symbols=a%2Cb].  A value that
    UTF-8 cannot encode (a lone surrogate) makes [urlencode] raise
    [UnicodeEncodeError], and nothing is sent. *)
Theorem tickers_query (self : KunaAPI) (symbols : symbols_arg) (E : env) :
  let v := match symbols with
           | SymStr s => s
           | SymList l => join [44] l
           | SymOther => py "ALL"
           end in
  (forall q, Url.quote_plus v = Some q ->
     fst (tickers self symbols E) =
       [mkRequest (endpoint ++ prefix ++ py "/tickers?symbols=" ++ q)
                  (py "{}") DEFAULT_HEADERS (py "GET")]) /\
  (Url.quote_plus v = None -> tickers self symbols E = ([], Raise UnicodeEncodeError)) /\
  Url.quote_plus (py "ALL") = Some (py "ALL") /\
  Url.quote_plus (join [44] [py "a"; py "b"]) = Some (py "a%2Cb").
Proof.
  destruct symbols as [s|l|]; cbv zeta; unfold tickers, request_;
    rewrite (with_query_single _ (py "symbols") (py "symbols")) by reflexivity;
    (split; [intros q Hq; rewrite Hq; reflexivity
            | split; [intros Hq; rewrite Hq; reflexivity | split; vm_compute; reflexivity]]).
Qed.

Lemma tickers_query_witness :
  Url.quote_plus (py "btcuah") = Some (py "btcuah") /\
  fst (tickers (mkKuna None None) (SymStr (py "btcuah")) E_test) =
    [mkRequest (endpoint ++ prefix ++ py "/tickers?symbols=" ++ py "btcuah")
               (py "{}") DEFAULT_HEADERS (py "GET")].
Proof.
  split; [reflexivity|].
  exact (proj1 (tickers_query (mkKuna None None) (SymStr (py "btcuah")) E_test) (py "btcuah") eq_refl).
Defined.

(** C7 counterexample: for [['a','b']] the URL ends in [symbols=a%2Cb],
    not in [symbols=a,b]. *)
Lemma tickers_list_comma_encoded :
  exists req,
    fst (tickers (mkKuna None None) (SymList [py "a"; py "b"]) E_test) = [req] /\
    req_url req = py "https://api.kuna.io/v3/tickers?symbols=a%2Cb" /\
    req_url req <> py "https://api.kuna.io/v3/tickers?symbols=a,b".
Proof.
  eexists. split; [vm_compute; reflexivity|]. vm_compute. split; [reflexivity | discriminate].
Qed.

(** C8: an asset-history type (a [str]) whose lowercase form is neither
    [withdraws] nor [deposits] is rejected with an [APIError] and no
    request. *)
Theorem assets_history_rejects_unknown_type (py_lower : pystr -> pystr) (self : KunaAPI)
    (type : pystr) (E : env) :
  ~ In (py_lower type) [py "withdraws"; py "deposits"] ->
  assets_history py_lower self (Some type) E =
  ([], Raise (APIError (MsgObj (JStr (py "type must by 'withdraws', 'deposits' or None"))))).
Proof.
  intros Hn. unfold assets_history. rewrite existsb_str_eqb_false by exact Hn. reflexivity.
Qed.

Lemma assets_history_rejects_unknown_type_witness :
  ~ In (ascii_lower (py "Trades")) [py "withdraws"; py "deposits"] /\
  assets_history ascii_lower (mkKuna (Some (py "pub")) (Some (py "secret"))) (Some (py "Trades")) E_test =
  ([], Raise (APIError (MsgObj (JStr (py "type must by 'withdraws', 'deposits' or None"))))).
Proof.
  assert (H : ~ In (ascii_lower (py "Trades")) [py "withdraws"; py "deposits"]).
  { vm_compute. intros [H | [H | []]]; discriminate H. }
  split; [exact H|]. apply assets_history_rejects_unknown_type. exact H.
Defined.

(** C9 (failing input): [get_order_book] calls [self.book()] without the
    market and raises [TypeError] where [book('btcuah')] sends a request,
    and [get_server_time] returns [None] where [timestamp] returns the
    server's JSON. *)
Theorem deprecated_aliases_diverge :
  get_order_book (mkKuna None None) (py "btcuah") E_ts = ([], Raise TypeError) /\
  fst (book (mkKuna None None) (py "btcuah") E_ts) =
    [mkRequest (py "https://api.kuna.io/v3/book/btcuah") (py "{}") DEFAULT_HEADERS (py "GET")] /\
  snd (get_server_time (mkKuna None None) E_ts) = Ok PyNone /\
  snd (timestamp (mkKuna None None) E_ts) = Ok (JNum (py "1612345678")).
Proof. vm_compute. repeat split. Qed.

(** C10: [assets_history()] raises [AttributeError] on [None.lower()] with
    no request, and no call of [assets_history] requests the combined
    [/auth/assets-history]. *)
Theorem assets_history_combined_unreachable (py_lower : pystr -> pystr) :
  py_lower [] = [] ->
  (forall self E, assets_history py_lower self None E = ([], Raise AttributeError)) /\
  (forall self type E r,
     In r (fst (assets_history py_lower self type E)) ->
     req_url r <> endpoint ++ prefix ++ py "/auth/assets-history").
Proof.
  intros Hl. split; [reflexivity|].
  intros self [t|] E r Hr; [|destruct Hr].
  unfold assets_history in Hr.
  destruct (existsb (str_eqb (py_lower t)) [py "withdraws"; py "deposits"]) eqn:Ht;
    [|destruct Hr].
  destruct t as [|c t].
  - rewrite Hl in Ht. discriminate Ht.
  - cbn [truthy negb] in Hr. apply request_urls in Hr. destruct Hr as [q [Hq Hr]].
    cbn [with_query] in Hq. injection Hq as <-. rewrite Hr. intros Heq.
    apply (f_equal (@length Z)) in Heq. rewrite !length_app in Heq. simpl in Heq. lia.
Qed.

Lemma assets_history_combined_unreachable_witness :
  ascii_lower [] = [] /\
  (forall self E, assets_history ascii_lower self None E = ([], Raise AttributeError)) /\
  (forall self type E r,
     In r (fst (assets_history ascii_lower self type E)) ->
     req_url r <> endpoint ++ prefix ++ py "/auth/assets-history").
Proof.
  split; [reflexivity|]. apply assets_history_combined_unreachable. reflexivity.
Defined.

(** ** Further properties of the client *)

Lemma bind_ret_discard {A} (m : M A) (E : env) : (m ;;; ret PyNone) E = discard (m E).
Proof.
  unfold bind, ret, discard. destruct (m E) as [t [a|e]]; cbn; rewrite ?app_nil_r; reflexivity.
Qed.

Lemma auth_request_shape (self : KunaAPI) (pk path q : pystr) (args : list (pystr * pystr))
    (body : list (pystr * json)) (E : env) :
  private_key self = Some pk -> is_ascii pk = true ->
  with_query path args = Some q -> is_ascii q = true -> num_ascii (JObj body) = true ->
  request_ self path args body true E =
  urlopen_json
    (mkRequest (endpoint ++ prefix ++ q) (dumps (JObj body))
       (DEFAULT_HEADERS ++
          [(py "kun-nonce", HStr (str_of_Z (clock_ms E)));
           (py "kun-apikey", hval_of (public_key self));
           (py "kun-signature",
             HStr (Sha384.hexdigest (Sha384.hmac_sha384 pk
                     ((prefix ++ q) ++ str_of_Z (clock_ms E) ++ dumps (JObj body)))))])
       (py "POST")) E.
Proof.
  intros Hpk Hk Hw Hq Hb.
  unfold request_. rewrite Hw, check_keys_noop.
  cbv beta iota zeta delta [bind ret ask of_result]. rewrite Hpk.
  rewrite generate_sign_ok; [reflexivity | | exact Hk].
  rewrite !is_ascii_app, str_of_Z_ascii, dumps_ascii, Hq by exact Hb. reflexivity.
Qed.

Lemma auth_headers_signature (nonce sign s : pystr) (key : hval) :
  In (py "kun-signature", HStr s)
     (hset (py "kun-signature") (HStr sign)
        (hset (py "kun-apikey") key (hset (py "kun-nonce") (HStr nonce) DEFAULT_HEADERS)))
  <-> s = sign.
Proof.
  assert (Hh : hset (py "kun-signature") (HStr sign)
                 (hset (py "kun-apikey") key (hset (py "kun-nonce") (HStr nonce) DEFAULT_HEADERS)) =
               DEFAULT_HEADERS ++ [(py "kun-nonce", HStr nonce); (py "kun-apikey", key);
                                   (py "kun-signature", HStr sign)]) by reflexivity.
  rewrite Hh. cbn [DEFAULT_HEADERS app In]. split.
  - intros H.
    repeat (destruct H as [H | H]; [apply (f_equal fst) in H; vm_compute in H; discriminate|]).
    destruct H as [H | []]. congruence.
  - intros ->. right; right; right; right; right; left. reflexivity.
Qed.

Lemma int_of_digits_snoc (s : pystr) (c : Z) :
  int_of_digits (s ++ [c]) = int_of_digits s * 10 + (c - 48).
Proof. unfold int_of_digits. rewrite fold_left_app. reflexivity. Qed.

Lemma digits_rev_value (f : nat) (n : Z) :
  (0 < f)%nat -> 0 <= n < 10 ^ Z.of_nat f ->
  int_of_digits (rev (digits_rev f n)) = n /\ forallb Json.is_digit (digits_rev f n) = true.
Proof.
  revert n. induction f as [|f IH]; intros n Hf Hn; [lia|].
  assert (Hm : 0 <= n mod 10 < 10) by (apply Z.mod_pos_bound; lia).
  assert (Hd : Json.is_digit (48 + n mod 10) = true)
    by (unfold Json.is_digit; rewrite andb_true_iff, !Z.leb_le; lia).
  cbn [digits_rev rev forallb]. rewrite Hd, int_of_digits_snoc.
  destruct (n <? 10) eqn:Hn10.
  - apply Z.ltb_lt in Hn10. rewrite Z.mod_small by lia.
    split; [change (0 * 10 + (48 + n - 48) = n); lia | reflexivity].
  - apply Z.ltb_ge in Hn10.
    destruct f as [|f'].
    + cbn in Hn. lia.
    + assert (Hq : 0 <= n / 10 < 10 ^ Z.of_nat (S f')).
      { split; [apply Z.div_pos; lia|].
        apply Z.div_lt_upper_bound; [lia|].
        rewrite Nat2Z.inj_succ, Z.pow_succ_r in Hn by lia. lia. }
      destruct (IH (n / 10) ltac:(lia) Hq) as [Hv Hdig].
      rewrite Hv, Hdig. split; [|reflexivity].
      pose proof (Z.div_mod n 10 ltac:(lia)). lia.
Qed.

Lemma forallb_rev {A} (p : A -> bool) (l : list A) : forallb p (rev l) = forallb p l.
Proof.
  induction l as [|a l IH]; [reflexivity|].
  cbn [rev]. rewrite forallb_app, IH. cbn. rewrite andb_true_r, andb_comm. reflexivity.
Qed.

(** [str(n)] of a non-negative [int] is a string of decimal digits that
    [int()] reads back as [n]. *)
Lemma str_of_Z_digits (n : Z) :
  0 <= n -> forallb Json.is_digit (str_of_Z n) = true /\ int_of_digits (str_of_Z n) = n.
Proof.
  intros Hn. unfold str_of_Z.
  destruct (n <? 0) eqn:Hneg; [apply Z.ltb_lt in Hneg; lia|].
  assert (Hl : 0 <= Z.log2 n) by apply Z.log2_nonneg.
  assert (Hb : n < 10 ^ Z.of_nat (Z.to_nat (Z.log2 n + 1))).
  { rewrite Z2Nat.id by lia.
    apply Z.lt_le_trans with (2 ^ (Z.log2 n + 1)).
    - destruct (Z.eq_dec n 0) as [->|Hn0]; [apply Z.pow_pos_nonneg; lia|].
      rewrite Z.add_1_r. apply (Z.log2_spec n ltac:(lia)).
    - apply Z.pow_le_mono_l. lia. }
  destruct (digits_rev_value (Z.to_nat (Z.log2 n + 1)) n ltac:(lia) ltac:(lia)) as [Hv Hd].
  rewrite forallb_rev. split; assumption.
Qed.

(** [Z.lor] of two bytes is a byte. *)
Lemma lor_byte (a b : Z) : 0 <= a < 256 -> 0 <= b < 256 -> 0 <= Z.lor a b < 256.
Proof.
  intros Ha Hb.
  assert (H0 : 0 <= Z.lor a b) by (apply Z.lor_nonneg; lia).
  assert (Hs : Z.shiftr (Z.lor a b) 8 = 0).
  { rewrite Z.shiftr_lor, !Z.shiftr_div_pow2 by lia.
    rewrite (Z.div_small a), (Z.div_small b) by (cbn; lia). reflexivity. }
  rewrite Z.shiftr_div_pow2 in Hs by lia.
  pose proof (Z.div_mod (Z.lor a b) (2 ^ 8) ltac:(cbn; lia)) as Hd.
  pose proof (Z.mod_pos_bound (Z.lor a b) (2 ^ 8) ltac:(cbn; lia)).
  rewrite Hs in Hd. cbn in *. lia.
Qed.

(** Every byte of the UTF-8 form of a code point is in [0, 256). *)
Lemma utf8_bytes (c : Z) (b : bytes) :
  0 <= c < 1114112 -> Url.utf8 c = Some b -> forall x, In x b -> 0 <= x < 256.
Proof.
  intros Hc Hu. unfold Url.utf8 in Hu.
  destruct (Url.is_surrogate c); [discriminate|].
  assert (L : forall z, 0 <= Z.land z 63 < 64).
  { intros z. change 63 with (Z.ones 6). rewrite Z.land_ones by lia. apply Z.mod_pos_bound. lia. }
  assert (D : forall k m, 0 <= c < k * 2 ^ m -> 0 <= m -> 0 <= Z.shiftr c m < k).
  { intros k m Hk Hm. rewrite Z.shiftr_div_pow2 by exact Hm.
    assert (0 < 2 ^ m) by (apply Z.pow_pos_nonneg; lia).
    split; [apply Z.div_pos; lia | apply Z.div_lt_upper_bound; lia]. }
  destruct (c <? 128) eqn:H1.
  - injection Hu as <-. apply Z.ltb_lt in H1. intros x [<- | []]. lia.
  - apply Z.ltb_ge in H1. destruct (c <? 2048) eqn:H2; [|destruct (c <? 65536) eqn:H3];
      rewrite ?Z.ltb_lt, ?Z.ltb_ge in *;
      apply (f_equal (fun o => match o with Some l => l | None => [] end)) in Hu;
      cbv beta iota in Hu; subst b.
    + pose proof (D 32 6 ltac:(cbn; lia) ltac:(lia)).
      intros x Hx; cbn [In] in Hx;
        destruct Hx as [<- | [<- | []]]; apply lor_byte; first [lia | specialize (L c); lia].
    + pose proof (D 16 12 ltac:(cbn; lia) ltac:(lia)).
      intros x Hx; cbn [In] in Hx;
        destruct Hx as [<- | [<- | [<- | []]]]; apply lor_byte;
        first [lia | specialize (L c); lia | specialize (L (Z.shiftr c 6)); lia].
    + pose proof (D 8 18 ltac:(cbn; lia) ltac:(lia)).
      intros x Hx; cbn [In] in Hx;
        destruct Hx as [<- | [<- | [<- | [<- | []]]]]; apply lor_byte;
        first [lia | specialize (L c); lia | specialize (L (Z.shiftr c 6)); lia
              | specialize (L (Z.shiftr c 12)); lia].
Qed.

Lemma encode_utf8_bytes (s : pystr) (bs : bytes) :
  (forall c, In c s -> 0 <= c < 1114112) -> Url.encode_utf8 s = Some bs ->
  forall x, In x bs -> 0 <= x < 256.
Proof.
  revert bs. induction s as [|c s IH]; intros bs Hs He x Hx.
  - injection He as <-. destruct Hx.
  - cbn [Url.encode_utf8] in He.
    destruct (Url.utf8 c) as [b|] eqn:Hu; [|discriminate].
    destruct (Url.encode_utf8 s) as [t|] eqn:Ht; [|discriminate].
    injection He as <-. apply in_app_or in Hx. destruct Hx as [Hx | Hx].
    + exact (utf8_bytes c b (Hs c (or_introl eq_refl)) Hu x Hx).
    + exact (IH t (fun c' Hc' => Hs c' (or_intror Hc')) eq_refl x Hx).
Qed.

Lemma hex_upper_safe (d : Z) : 0 <= d < 16 -> Url.always_safe (Url.hex_upper d) = true.
Proof.
  intros Hd. unfold Url.always_safe, Url.hex_upper, Json.is_digit.
  destruct (d <? 10) eqn:H; rewrite ?Z.ltb_lt, ?Z.ltb_ge in H;
    repeat rewrite ?orb_true_iff, ?andb_true_iff, ?Z.leb_le; lia.
Qed.

(** What [quote] can output from bytes: a safe character, [%], or a
    character of [safe]. *)
Lemma quote_chars (s safe q : pystr) :
  (forall c, In c s -> 0 <= c < 1114112) -> Url.quote s safe = Some q ->
  forall c, In c q -> Url.always_safe c = true \/ c = 37 \/ In c safe.
Proof.
  intros Hs Hq c Hc. unfold Url.quote in Hq.
  destruct (Url.encode_utf8 s) as [bs|] eqn:He; [|discriminate].
  injection Hq as <-. apply in_flat_map in Hc. destruct Hc as [b [Hb Hc]].
  pose proof (encode_utf8_bytes s bs Hs He b Hb) as Hr.
  unfold Url.quote_byte in Hc.
  destruct (Url.always_safe b) eqn:Ha.
  - destruct Hc as [<- | []]. left. exact Ha.
  - destruct (existsb (Z.eqb b) safe) eqn:Hx; cbn [orb] in Hc.
    + destruct Hc as [<- | []]. right; right.
      apply existsb_exists in Hx. destruct Hx as [y [Hy Heq]]. apply Z.eqb_eq in Heq. subst. exact Hy.
    + destruct Hc as [<- | [<- | [<- | []]]].
      * right; left. reflexivity.
      * left. apply hex_upper_safe. split; [apply Z.div_pos; lia | apply Z.div_lt_upper_bound; lia].
      * left. apply hex_upper_safe. apply Z.mod_pos_bound. lia.
Qed.

Lemma utf8_none (c : Z) : Url.utf8 c = None <-> Url.is_surrogate c = true.
Proof.
  unfold Url.utf8. destruct (Url.is_surrogate c); [tauto|].
  split; [|discriminate]. destruct (c <? 128), (c <? 2048), (c <? 65536); discriminate.
Qed.

Lemma encode_utf8_none (s : pystr) :
  Url.encode_utf8 s = None <-> existsb Url.is_surrogate s = true.
Proof.
  induction s as [|c s IH]; cbn [Url.encode_utf8 existsb]; [split; discriminate|].
  rewrite orb_true_iff, <- IH, <- utf8_none.
  destruct (Url.utf8 c), (Url.encode_utf8 s); split; try discriminate; intuition congruence.
Qed.

Lemma quote_plus_none (s : pystr) :
  Url.quote_plus s = None <-> existsb Url.is_surrogate s = true.
Proof.
  rewrite <- encode_utf8_none. unfold Url.quote_plus, Url.quote.
  destruct (negb (existsb (Z.eqb 32) s)), (Url.encode_utf8 s); cbn [option_map];
    split; intros H; first [reflexivity | discriminate].
Qed.

(** The public methods never look at the credentials: a client with keys
    and one without send the same request and get the same outcome. *)
Theorem public_methods_ignore_credentials (self1 self2 : KunaAPI) (E : env) :
  timestamp self1 E = timestamp self2 E /\
  currencies self1 E = currencies self2 E /\
  (forall c, exchange_rates self1 c E = exchange_rates self2 c E) /\
  markets self1 E = markets self2 E /\
  (forall sym, tickers self1 sym E = tickers self2 sym E) /\
  (forall m, book self1 m E = book self2 m E) /\
  fees self1 E = fees self2 E /\
  (forall code, kuna_codes_check self1 code E = kuna_codes_check self2 code E).
Proof. repeat split; reflexivity. Qed.

(** An authenticated request without a private key never reaches
    [urlopen]; when the path and query are ASCII (so [payload.encode]
    succeeds) it raises [AttributeError] from [None.encode]. *)
Theorem auth_request_without_private_key (self : KunaAPI) (path : pystr)
    (args : list (pystr * pystr)) (body : list (pystr * json)) (E : env) :
  private_key self = None ->
  fst (request_ self path args body true E) = [] /\
  (forall q, with_query path args = Some q -> is_ascii q = true -> num_ascii (JObj body) = true ->
     snd (request_ self path args body true E) = Raise AttributeError).
Proof.
  intros Hpk. unfold request_.
  destruct (with_query path args) as [q|]; [|split; [reflexivity | intros q Hq; discriminate]].
  rewrite check_keys_noop. cbv beta iota zeta delta [bind ret ask of_result]. rewrite Hpk.
  unfold generate_sign. split.
  - destruct (encode_ascii _); reflexivity.
  - intros q' Hq' Hq Hb. injection Hq' as <-. unfold encode_ascii.
    rewrite !is_ascii_app, str_of_Z_ascii, dumps_ascii, Hq by exact Hb. reflexivity.
Qed.

Lemma auth_request_without_private_key_witness :
  private_key (mkKuna (Some (py "pub")) None) = None /\
  fst (request_ (mkKuna (Some (py "pub")) None) (py "/auth/r/wallets") [] [] true E_test) = [] /\
  (forall q, with_query (py "/auth/r/wallets") [] = Some q -> is_ascii q = true ->
     num_ascii (JObj []) = true ->
     snd (request_ (mkKuna (Some (py "pub")) None) (py "/auth/r/wallets") [] [] true E_test)
     = Raise AttributeError).
Proof.
  split; [reflexivity|].
  apply auth_request_without_private_key. reflexivity.
Defined.

(** An authenticated request whose path and query cannot be encoded as
    ASCII (a non-ASCII market, or a lone surrogate in the query) raises
    [UnicodeEncodeError] and sends nothing. *)
Theorem auth_request_non_ascii_path (self : KunaAPI) (path : pystr)
    (args : list (pystr * pystr)) (body : list (pystr * json)) (E : env) :
  match with_query path args with Some q => is_ascii q | None => false end = false ->
  request_ self path args body true E = ([], Raise UnicodeEncodeError).
Proof.
  intros Hq. unfold request_.
  destruct (with_query path args) as [q|]; [|reflexivity].
  rewrite check_keys_noop. cbv beta iota zeta delta [bind ret ask of_result].
  unfold generate_sign, encode_ascii. rewrite !is_ascii_app, Hq. reflexivity.
Qed.

Lemma auth_request_non_ascii_path_witness :
  match with_query (py "/auth/r/orders/" ++ [1082]) [] with
  | Some q => is_ascii q | None => false end = false /\
  auth_r_orders (mkKuna (Some (py "pub")) (Some (py "secret"))) (Some [1082]) E_test
  = ([], Raise UnicodeEncodeError).
Proof.
  split; [reflexivity|].
  exact (auth_request_non_ascii_path (mkKuna (Some (py "pub")) (Some (py "secret")))
           (py "/auth/r/orders/" ++ [1082]) [] [] E_test eq_refl).
Defined.

(** Non-ASCII text in a body value does not break signing: [json.dumps]
    escapes it, and one POST carrying that ASCII body is sent. *)
Theorem auth_request_body_escaped (self : KunaAPI) (pk path q : pystr)
    (args : list (pystr * pystr)) (body : list (pystr * json)) (E : env) :
  private_key self = Some pk -> is_ascii pk = true ->
  with_query path args = Some q -> is_ascii q = true -> num_ascii (JObj body) = true ->
  exists req, fst (request_ self path args body true E) = [req] /\
    req_method req = py "POST" /\
    req_url req = endpoint ++ prefix ++ q /\
    req_data req = dumps (JObj body) /\ is_ascii (req_data req) = true.
Proof.
  intros Hpk Hk Hw Hq Hb. rewrite (auth_request_shape self pk path q args body E Hpk Hk Hw Hq Hb).
  eexists. split; [reflexivity|]. cbn [req_method req_url req_data].
  repeat split. apply dumps_ascii, Hb.
Qed.

Lemma auth_request_body_escaped_witness :
  (private_key (mkKuna (Some (py "pub")) (Some (py "secret"))) = Some (py "secret") /\
   is_ascii (py "secret") = true /\
   with_query (py "/auth/kuna_codes") [] = Some (py "/auth/kuna_codes") /\
   is_ascii (py "/auth/kuna_codes") = true /\
   num_ascii (JObj [(py "comment", JStr [1087; 1088; 1080])]) = true) /\
  exists req,
    fst (request_ (mkKuna (Some (py "pub")) (Some (py "secret"))) (py "/auth/kuna_codes") []
           [(py "comment", JStr [1087; 1088; 1080])] true E_test) = [req] /\
    req_method req = py "POST" /\
    req_url req = endpoint ++ prefix ++ py "/auth/kuna_codes" /\
    req_data req = dumps (JObj [(py "comment", JStr [1087; 1088; 1080])]) /\
    is_ascii (req_data req) = true.
Proof.
  split; [repeat split; reflexivity|].
  apply (auth_request_body_escaped _ (py "secret")); reflexivity.
Defined.

(** Optional market or currency: [None] and the empty string both select
    the path without it; a non-empty value is appended to the path. *)
Theorem optional_path_segment (self : KunaAPI) (E : env) :
  auth_r_orders self (Some []) E = auth_r_orders self None E /\
  auth_r_orders_hist self (Some []) E = auth_r_orders_hist self None E /\
  exchange_rates self (Some []) E = exchange_rates self None E /\
  (forall m, m <> [] -> forall r, In r (fst (auth_r_orders self (Some m) E)) ->
     req_url r = endpoint ++ prefix ++ py "/auth/r/orders/" ++ m) /\
  (forall m, m <> [] -> forall r, In r (fst (auth_r_orders_hist self (Some m) E)) ->
     req_url r = endpoint ++ prefix ++ py "/auth/r/orders/" ++ m ++ py "/hist") /\
  (forall c, c <> [] -> forall r, In r (fst (exchange_rates self (Some c) E)) ->
     req_url r = endpoint ++ prefix ++ py "/exchange-rates/" ++ c).
Proof.
  repeat split; try reflexivity;
    intros [|x m] Hm r Hr; try (exfalso; apply Hm; reflexivity);
    cbv beta iota zeta delta [auth_r_orders auth_r_orders_hist exchange_rates truthy] in Hr;
    apply request_urls in Hr; destruct Hr as [q [Hq Hr]];
    cbn [with_query] in Hq; injection Hq as <-; exact Hr.
Qed.

Lemma optional_path_segment_witness :
  py "btcuah" <> [] /\
  forall r, In r (fst (auth_r_orders (mkKuna (Some (py "pub")) (Some (py "secret"))) (Some (py "btcuah")) E_test)) ->
    req_url r = endpoint ++ prefix ++ py "/auth/r/orders/" ++ py "btcuah".
Proof.
  split; [discriminate|].
  apply (proj1 (proj2 (proj2 (proj2 (optional_path_segment
           (mkKuna (Some (py "pub")) (Some (py "secret"))) E_test))))).
  discriminate.
Defined.

(** The order type is checked case-insensitively but sent as given: an
    accepted type gives one POST to [/v3/auth/w/order/submit] whose body
    holds symbol, type, amount, price and stop_price in this order, the
    missing prices as [null]. *)
Theorem order_submit_sends_type_as_given (py_lower : pystr -> pystr) (self : KunaAPI) (pk : pystr)
    (symbol type : pystr) (amount : Z) (price stop_price : option Z) (E : env) :
  In (py_lower type) available_types -> private_key self = Some pk -> is_ascii pk = true ->
  exists req,
    fst (auth_w_order_submit py_lower self symbol type amount price stop_price E) = [req] /\
    req_method req = py "POST" /\
    req_url req = py "https://api.kuna.io/v3/auth/w/order/submit" /\
    req_data req = dumps (JObj [(py "symbol", JStr symbol); (py "type", JStr type);
                                (py "amount", json_of_num amount); (py "price", json_of_opt price);
                                (py "stop_price", json_of_opt stop_price)]).
Proof.
  intros Ht Hpk Hk. unfold auth_w_order_submit.
  apply existsb_str_eqb in Ht. rewrite Ht. cbn [negb].
  rewrite (auth_request_shape self pk (py "/auth/w/order/submit") (py "/auth/w/order/submit") []
             _ E Hpk Hk eq_refl eq_refl).
  - eexists. split; [reflexivity|]. repeat split.
  - destruct price, stop_price; cbn [num_ascii forallb json_of_opt json_of_num];
      rewrite ?str_of_Z_ascii; reflexivity.
Qed.

Lemma order_submit_sends_type_as_given_witness :
  (In (ascii_lower (py "LIMIT")) available_types /\
   private_key (mkKuna (Some (py "pub")) (Some (py "secret"))) = Some (py "secret") /\
   is_ascii (py "secret") = true) /\
  exists req,
    fst (auth_w_order_submit ascii_lower (mkKuna (Some (py "pub")) (Some (py "secret")))
           (py "ethuah") (py "LIMIT") 1 (Some 600) None E_test) = [req] /\
    req_method req = py "POST" /\
    req_url req = py "https://api.kuna.io/v3/auth/w/order/submit" /\
    req_data req = dumps (JObj [(py "symbol", JStr (py "ethuah")); (py "type", JStr (py "LIMIT"));
                                (py "amount", json_of_num 1); (py "price", json_of_opt (Some 600));
                                (py "stop_price", json_of_opt None)]).
Proof.
  assert (H : In (ascii_lower (py "LIMIT")) available_types) by (vm_compute; left; reflexivity).
  split; [split; [exact H | split; reflexivity]|].
  exact (order_submit_sends_type_as_given ascii_lower (mkKuna (Some (py "pub")) (Some (py "secret")))
           (py "secret") (py "ethuah") (py "LIMIT") 1 (Some 600) None E_test H eq_refl eq_refl).
Defined.

(** [put_order] ignores the sign of [amount] and sends one signed
    [limit] order to [/v3/auth/w/order/submit] with a null [stop_price]:
    the amount sent is [abs(amount)] when [side.lower() == 'buy'] and
    [-abs(amount)] otherwise. *)
Theorem put_order_signed_amount (py_lower : pystr -> pystr) (self : KunaAPI)
    (pk side symbol : pystr) (amount : Z) (price : option Z) (E : env) :
  py_lower (py "limit") = py "limit" -> private_key self = Some pk -> is_ascii pk = true ->
  put_order py_lower self side (- amount) symbol price E =
    put_order py_lower self side amount symbol price E /\
  exists req a,
    fst (put_order py_lower self side amount symbol price E) = [req] /\
    req_method req = py "POST" /\
    req_url req = py "https://api.kuna.io/v3/auth/w/order/submit" /\
    req_data req = dumps (JObj [(py "symbol", JStr symbol); (py "type", JStr (py "limit"));
                                (py "amount", json_of_num a); (py "price", json_of_opt price);
                                (py "stop_price", JNull)]) /\
    (py_lower side = py "buy" -> a = Z.abs amount) /\
    (py_lower side <> py "buy" -> a = - Z.abs amount).
Proof.
  intros Hl Hpk Hk. split; [unfold put_order; rewrite Z.abs_opp; reflexivity|].
  unfold put_order. cbv zeta. rewrite bind_ret_discard. unfold discard. cbn [fst].
  unfold auth_w_order_submit.
  assert (Ht : existsb (str_eqb (py_lower (py "limit"))) available_types = true)
    by (rewrite Hl; reflexivity).
  rewrite Ht. cbn [negb].
  rewrite (auth_request_shape self pk (py "/auth/w/order/submit") (py "/auth/w/order/submit") []
             _ E Hpk Hk eq_refl eq_refl).
  - eexists. exists (if str_eqb (py_lower side) (py "buy") then Z.abs amount else -1 * Z.abs amount).
    split; [reflexivity|]. split; [reflexivity|]. split; [reflexivity|]. split; [reflexivity|].
    split; intros Hs.
    + apply str_eqb_true in Hs. rewrite Hs. reflexivity.
    + destruct (str_eqb (py_lower side) (py "buy")) eqn:Hb.
      * apply str_eqb_true in Hb. contradiction.
      * lia.
  - destruct price; cbn [num_ascii forallb json_of_opt json_of_num];
      rewrite ?str_of_Z_ascii; reflexivity.
Qed.

Lemma put_order_signed_amount_witness :
  (ascii_lower (py "limit") = py "limit" /\
   private_key (mkKuna (Some (py "pub")) (Some (py "secret"))) = Some (py "secret") /\
   is_ascii (py "secret") = true) /\
  put_order ascii_lower (mkKuna (Some (py "pub")) (Some (py "secret"))) (py "SELL") (- 3)
    (py "ethuah") (Some 600) E_test =
  put_order ascii_lower (mkKuna (Some (py "pub")) (Some (py "secret"))) (py "SELL") 3
    (py "ethuah") (Some 600) E_test.
Proof.
  split; [repeat split; reflexivity|].
  exact (proj1 (put_order_signed_amount ascii_lower (mkKuna (Some (py "pub")) (Some (py "secret")))
                  (py "secret") (py "SELL") (py "ethuah") 3 (Some 600) E_test eq_refl eq_refl eq_refl)).
Defined.

(** An accepted [assets_history] type is checked case-insensitively but
    put in the path as given: the call is the authenticated request to
    [/auth/assets-history/<type>] (it holds as soon as [''.lower() == '']). *)
Theorem assets_history_accepted_type (py_lower : pystr -> pystr) (self : KunaAPI) (t : pystr)
    (E : env) :
  py_lower [] = [] -> In (py_lower t) [py "withdraws"; py "deposits"] ->
  assets_history py_lower self (Some t) E =
  request_ self (py "/auth/assets-history/" ++ t) [] [] true E.
Proof.
  intros H0 Ht. destruct t as [|c t'].
  - rewrite H0 in Ht. destruct Ht as [H | [H | []]]; discriminate.
  - unfold assets_history. apply existsb_str_eqb in Ht. rewrite Ht. reflexivity.
Qed.

Lemma assets_history_accepted_type_witness :
  (ascii_lower [] = [] /\ In (ascii_lower (py "Deposits")) [py "withdraws"; py "deposits"]) /\
  assets_history ascii_lower (mkKuna (Some (py "pub")) (Some (py "secret"))) (Some (py "Deposits"))
    E_test =
  request_ (mkKuna (Some (py "pub")) (Some (py "secret"))) (py "/auth/assets-history/Deposits")
    [] [] true E_test.
Proof.
  assert (H : In (ascii_lower (py "Deposits")) [py "withdraws"; py "deposits"])
    by (vm_compute; right; left; reflexivity).
  split; [split; [reflexivity | exact H]|].
  exact (assets_history_accepted_type ascii_lower (mkKuna (Some (py "pub")) (Some (py "secret")))
           (py "Deposits") E_test eq_refl H).
Defined.

(** The [kun-nonce] header of an authenticated request is the decimal
    text of the clock in milliseconds: digits only, and read back by
    [int()] it gives the clock. *)
Theorem auth_nonce_is_clock (self : KunaAPI) (pk path q : pystr) (args : list (pystr * pystr))
    (body : list (pystr * json)) (E : env) :
  private_key self = Some pk -> is_ascii pk = true ->
  with_query path args = Some q -> is_ascii q = true -> num_ascii (JObj body) = true ->
  0 <= clock_ms E ->
  exists req s, fst (request_ self path args body true E) = [req] /\
    In (py "kun-nonce", HStr s) (req_headers req) /\
    forallb Json.is_digit s = true /\ int_of_digits s = clock_ms E.
Proof.
  intros Hpk Hk Hw Hq Hb Hc. rewrite (auth_request_shape self pk path q args body E Hpk Hk Hw Hq Hb).
  eexists. exists (str_of_Z (clock_ms E)). split; [reflexivity|].
  split; [cbn [req_headers DEFAULT_HEADERS app In]; right; right; right; left; reflexivity|].
  apply str_of_Z_digits, Hc.
Qed.

Lemma auth_nonce_is_clock_witness :
  (private_key (mkKuna (Some (py "pub")) (Some (py "secret"))) = Some (py "secret") /\
   is_ascii (py "secret") = true /\ with_query (py "/auth/me") [] = Some (py "/auth/me") /\
   is_ascii (py "/auth/me") = true /\
   num_ascii (JObj []) = true /\ 0 <= clock_ms E_test) /\
  exists req s, fst (request_ (mkKuna (Some (py "pub")) (Some (py "secret"))) (py "/auth/me") [] []
                       true E_test) = [req] /\
    In (py "kun-nonce", HStr s) (req_headers req) /\
    forallb Json.is_digit s = true /\ int_of_digits s = clock_ms E_test.
Proof.
  assert (Hc : 0 <= clock_ms E_test) by (cbn; lia).
  split; [repeat split; [exact Hc]|].
  exact (auth_nonce_is_clock (mkKuna (Some (py "pub")) (Some (py "secret"))) (py "secret")
           (py "/auth/me") (py "/auth/me") [] [] E_test eq_refl eq_refl eq_refl eq_refl eq_refl Hc).
Defined.

(** [_request] hands at most one request to [urlopen] and never retries:
    that request carries the default headers first, the JSON body, and the
    method [POST] for a user method, [GET] otherwise. *)
Theorem request_at_most_one (self : KunaAPI) (path : pystr) (args : list (pystr * pystr))
    (body : list (pystr * json)) (user : bool) (E : env) :
  (length (fst (request_ self path args body user E)) <= 1)%nat /\
  forall r, In r (fst (request_ self path args body user E)) ->
    req_method r = (if user then py "POST" else py "GET") /\
    req_data r = dumps (JObj body) /\
    exists extra, req_headers r = DEFAULT_HEADERS ++ extra.
Proof.
  unfold request_. destruct (with_query path args) as [q|]; [|split; [cbn; lia | intros r []]].
  rewrite check_keys_noop.
  cbv beta iota zeta delta [bind ret ask of_result urlopen_json]. destruct user.
  - destruct (generate_sign _ _ _ _) as [sign|e]; cbn [fst app length].
    + split; [lia|]. intros r [<- | []]. cbn [req_method req_data req_headers].
      split; [reflexivity|]. split; [reflexivity|].
      eexists [(py "kun-nonce", HStr (str_of_Z (clock_ms E)));
               (py "kun-apikey", hval_of (public_key self)); (py "kun-signature", HStr sign)].
      reflexivity.
    + split; [lia | intros r []].
  - cbn [fst app length]. split; [lia|]. intros r [<- | []].
    cbn [req_method req_data req_headers]. split; [reflexivity|]. split; [reflexivity|].
    exists []. rewrite app_nil_r. reflexivity.
Qed.

(** A list of one market and the market itself give the same [tickers]
    call, and the empty list sends an empty [symbols] value. *)
Theorem tickers_singleton_list (self : KunaAPI) (s : pystr) (E : env) :
  tickers self (SymList [s]) E = tickers self (SymStr s) E /\
  tickers self (SymList []) E = tickers self (SymStr []) E.
Proof. split; reflexivity. Qed.


(** A [tickers] string of code points is sent through [quote_plus]: every
    character of the encoded value is an unreserved ASCII character, [%]
    or [+], so the value can add no path segment, parameter or fragment. *)
Theorem tickers_value_safe (self : KunaAPI) (s q : pystr) (E : env) :
  (forall c, In c s -> 0 <= c < 1114112) -> Url.quote_plus s = Some q ->
  fst (tickers self (SymStr s) E) =
    [mkRequest (endpoint ++ prefix ++ py "/tickers?symbols=" ++ q) (py "{}") DEFAULT_HEADERS (py "GET")] /\
  (forall c, In c q -> Url.always_safe c = true \/ c = 37 \/ c = 43).
Proof.
  intros Hs Hq. split.
  - unfold tickers, request_.
    rewrite (with_query_single _ (py "symbols") (py "symbols")) by reflexivity.
    rewrite Hq. reflexivity.
  - intros c Hc. unfold Url.quote_plus in Hq.
    destruct (negb (existsb (Z.eqb 32) s)).
    + destruct (quote_chars s [] q Hs Hq c Hc) as [H | [H | []]]; [left | right; left]; exact H.
    + destruct (Url.quote s [32]) as [q'|] eqn:Hq'; [|discriminate].
      injection Hq as <-. apply in_map_iff in Hc. destruct Hc as [c' [<- Hc']].
      destruct (c' =? 32) eqn:H32; [right; right; reflexivity|].
      destruct (quote_chars s [32] q' Hs Hq' c' Hc') as [H | [H | [H | []]]].
      * left. exact H.
      * right; left. exact H.
      * subst. discriminate H32.
Qed.

Lemma tickers_value_safe_witness :
  ((forall c, In c (py "btc uah/x") -> 0 <= c < 1114112) /\
   Url.quote_plus (py "btc uah/x") = Some (py "btc+uah%2Fx")) /\
  fst (tickers (mkKuna None None) (SymStr (py "btc uah/x")) E_test) =
    [mkRequest (endpoint ++ prefix ++ py "/tickers?symbols=" ++ py "btc+uah%2Fx") (py "{}")
       DEFAULT_HEADERS (py "GET")] /\
  (forall c, In c (py "btc+uah%2Fx") -> Url.always_safe c = true \/ c = 37 \/ c = 43).
Proof.
  assert (Hs : forall c, In c (py "btc uah/x") -> 0 <= c < 1114112).
  { intros c Hc. vm_compute in Hc. repeat (destruct Hc as [<- | Hc]; [lia|]). destruct Hc. }
  assert (Hq : Url.quote_plus (py "btc uah/x") = Some (py "btc+uah%2Fx")) by (vm_compute; reflexivity).
  split; [split; [exact Hs | exact Hq]|].
  exact (tickers_value_safe (mkKuna None None) (py "btc uah/x") (py "btc+uah%2Fx") E_test Hs Hq).
Defined.

(** [tickers] with a string fails exactly on a lone surrogate: then
    [urlencode] raises [UnicodeEncodeError] and nothing is sent; otherwise
    one request is sent. *)
Theorem tickers_surrogate_raises (self : KunaAPI) (s : pystr) (E : env) :
  (existsb Url.is_surrogate s = true ->
   tickers self (SymStr s) E = ([], Raise UnicodeEncodeError)) /\
  (existsb Url.is_surrogate s = false -> length (fst (tickers self (SymStr s) E)) = 1%nat).
Proof.
  unfold tickers, request_.
  rewrite (with_query_single _ (py "symbols") (py "symbols")) by reflexivity.
  split; intros H.
  - apply quote_plus_none in H. rewrite H. reflexivity.
  - destruct (Url.quote_plus s) as [q|] eqn:Hq; [reflexivity|].
    apply quote_plus_none in Hq. congruence.
Qed.

Lemma tickers_surrogate_raises_witness :
  existsb Url.is_surrogate [55296] = true /\
  tickers (mkKuna None None) (SymStr [55296]) E_test = ([], Raise UnicodeEncodeError).
Proof.
  split; [reflexivity|].
  exact (proj1 (tickers_surrogate_raises (mkKuna None None) [55296] E_test) eq_refl).
Defined.

(** The public key never enters the signature: two clients with the same
    private key send the same URL, body and [kun-signature]; only
    [kun-apikey] can differ. *)
Theorem signature_ignores_public_key (self1 self2 : KunaAPI) (path : pystr)
    (args : list (pystr * pystr)) (body : list (pystr * json)) (E : env) :
  private_key self1 = private_key self2 ->
  forall r1 r2, In r1 (fst (request_ self1 path args body true E)) ->
    In r2 (fst (request_ self2 path args body true E)) ->
    req_url r1 = req_url r2 /\ req_data r1 = req_data r2 /\
    (forall s, In (py "kun-signature", HStr s) (req_headers r1) <->
               In (py "kun-signature", HStr s) (req_headers r2)).
Proof.
  intros Hk r1 r2. unfold request_. destruct (with_query path args) as [q|]; [|intros []].
  rewrite !check_keys_noop.
  cbv beta iota zeta delta [bind ret ask of_result urlopen_json]. rewrite Hk.
  destruct (generate_sign _ _ _ _) as [sign|e]; cbn [fst app]; [|intros []].
  intros [<- | []] [<- | []]. cbn [req_url req_data req_headers].
  split; [reflexivity|]. split; [reflexivity|].
  intros s. rewrite !auth_headers_signature. reflexivity.
Qed.

Lemma signature_ignores_public_key_witness :
  private_key (mkKuna None (Some (py "secret"))) = private_key (mkKuna (Some (py "pub")) (Some (py "secret"))) /\
  forall r1 r2,
    In r1 (fst (request_ (mkKuna None (Some (py "secret"))) (py "/auth/me") [] [] true E_test)) ->
    In r2 (fst (request_ (mkKuna (Some (py "pub")) (Some (py "secret"))) (py "/auth/me") [] [] true E_test)) ->
    req_url r1 = req_url r2 /\ req_data r1 = req_data r2 /\
    (forall s, In (py "kun-signature", HStr s) (req_headers r1) <->
               In (py "kun-signature", HStr s) (req_headers r2)).
Proof.
  split; [reflexivity|].
  exact (signature_ignores_public_key (mkKuna None (Some (py "secret")))
           (mkKuna (Some (py "pub")) (Some (py "secret"))) (py "/auth/me") [] [] E_test eq_refl).
Defined.
